(** * 3DS2 token and result utilities
    (packages/lib/src/components/ThreeDS2/components/utils.ts)

    A shallow embedding of the pure functions of the 3D Secure 2 helper
    module: [decodeAndParseToken], [encodeResult],
    [validateChallengeWindowSize], [getChallengeWindowSize],
    [prepareChallengeData], [prepareFingerPrintData] and [handleErrorCode],
    together with the JavaScript notions they rest on (values, truthiness,
    property reads, exceptions, JSON text and base64 text).

    Strings are sequences of 8-bit code units ([string]); a code unit above
    0xFF is outside this model. *)

From Stdlib Require Import String Ascii List Bool Arith Lia.
From stdpp Require Import gmap strings.
Import ListNotations.
Open Scope string_scope.
Set Warnings "-register-all".

(** ** JavaScript values *)

Module Js.

(** The values that flow through the module.  A number is carried as its
    validated literal: nothing here computes with numbers.  [JBuiltin n] is
    the built-in function [n] that every plain object inherits from
    [Object.prototype]. *)
Inductive JsValue : Type :=
| JUndefined
| JNull
| JBool (b : bool)
| JNumber (literal : string)
| JString (s : string)
| JArray (elems : list JsValue)
| JObject (fields : list (string * JsValue))
| JBuiltin (name : string).

(** What a function raises.  [Error m] is [new Error(m)]; [TypeError] is
    raised by destructuring [null] or [undefined]; [DecoderException]
    stands for whatever the base64 helper itself raises. *)
Inductive Exception : Type :=
| Error (message : string)
| TypeError
| DecoderException.

(** A call either returns or throws. *)
Inductive Completion (A : Type) : Type :=
| Return (a : A)
| Throw (e : Exception).
Arguments Return {A} a.
Arguments Throw {A} e.

Definition bind {A B} (c : Completion A) (k : A -> Completion B) : Completion B :=
  match c with
  | Return a => k a
  | Throw e => Throw e
  end.

Fixpoint nonzero_mantissa (literal : string) : bool :=
  match literal with
  | EmptyString => false
  | String c rest =>
      if Ascii.eqb c "e" || Ascii.eqb c "E" then false
      else if Ascii.eqb c "-" || Ascii.eqb c "." || Ascii.eqb c "0" then nonzero_mantissa rest
      else true
  end.

Definition string_truthy (s : string) : bool :=
  match s with
  | EmptyString => false
  | String _ _ => true
  end.

(** [ToBoolean] of an optional string ([None] is [undefined]). *)
Definition truthy (v : option string) : bool :=
  match v with
  | None => false
  | Some s => string_truthy s
  end.

(** [ToBoolean].  A number literal is zero when its mantissa has no digit
    other than [0] (the rounding of a tiny literal to zero is not modelled);
    no number reaches a test in this module. *)
Definition to_boolean (v : JsValue) : bool :=
  match v with
  | JUndefined | JNull => false
  | JBool b => b
  | JNumber literal => nonzero_mantissa literal
  | JString s => string_truthy s
  | JArray _ | JObject _ | JBuiltin _ => true
  end.

Definition of_option (v : option string) : JsValue :=
  match v with
  | None => JUndefined
  | Some s => JString s
  end.

(** Own properties of an object, in insertion order (the engine's placing
    of integer-like keys first is not modelled: nothing here enumerates an
    object that could hold one). *)
Fixpoint own_property (fields : list (string * JsValue)) (k : string) : option JsValue :=
  match fields with
  | [] => None
  | (k', v) :: rest => if String.eqb k' k then Some v else own_property rest k
  end.

(** Assignment [o[k] = v]: an existing key keeps its place. *)
Fixpoint set_property (fields : list (string * JsValue)) (k : string) (v : JsValue)
  : list (string * JsValue) :=
  match fields with
  | [] => [(k, v)]
  | (k', v') :: rest =>
      if String.eqb k' k then (k', v) :: rest else (k', v') :: set_property rest k v
  end.

(** The function members of [Object.prototype]. *)
Definition Object_prototype : list string :=
  [ "constructor"; "hasOwnProperty"; "isPrototypeOf"; "propertyIsEnumerable";
    "toLocaleString"; "toString"; "valueOf";
    "__defineGetter__"; "__defineSetter__"; "__lookupGetter__"; "__lookupSetter__" ].

(** What a plain object, an array or a primitive inherits under the name
    [k]; [__proto__] reads the prototype, an object with no enumerable
    property of its own. *)
Definition inherited (k : string) : JsValue :=
  if String.eqb k "__proto__" then JObject []
  else if existsb (String.eqb k) Object_prototype then JBuiltin k
  else JUndefined.

(** A property read [v[k]] or [const { k } = v]: the own property when there
    is one, else what the prototype chain gives.  For an array or a primitive
    only the chain is consulted: the keys read in this module are neither
    indices nor [length] nor names of array or string methods. *)
Definition get (v : JsValue) (k : string) : JsValue :=
  match v with
  | JObject fields =>
      match own_property fields k with
      | Some x => x
      | None => inherited k
      end
  | _ => inherited k
  end.

(** Destructuring requires a value other than [null] and [undefined]. *)
Definition destructurable (v : JsValue) : bool :=
  match v with
  | JUndefined | JNull => false
  | _ => true
  end.

Definition require_object_coercible (v : JsValue) : Completion unit :=
  if destructurable v then Return tt else Throw TypeError.

End Js.
Export Js.

Notation "'let!' x ':=' c 'in' k" := (bind c (fun x => k))
  (at level 10, x name, c at level 100, k at level 200, only parsing).

(** ** Characters *)

Module Chars.

Definition dquote : ascii := Eval cbv in ascii_of_nat 34.
Definition backslash : ascii := Eval cbv in ascii_of_nat 92.
Definition tab : ascii := Eval cbv in ascii_of_nat 9.
Definition newline : ascii := Eval cbv in ascii_of_nat 10.
Definition creturn : ascii := Eval cbv in ascii_of_nat 13.
Definition backspace : ascii := Eval cbv in ascii_of_nat 8.
Definition formfeed : ascii := Eval cbv in ascii_of_nat 12.

(** Position of a character in a string. *)
Fixpoint index_of (c : ascii) (s : string) : option nat :=
  match s with
  | EmptyString => None
  | String c' rest => if Ascii.eqb c' c then Some 0 else option_map S (index_of c rest)
  end.

Definition one_of (set : string) (c : ascii) : bool :=
  match index_of c set with
  | Some _ => true
  | None => false
  end.

Definition is_digit : ascii -> bool := one_of "0123456789".
Definition is_letter : ascii -> bool :=
  one_of "ABCDEFGHIJKLMNOPQRSTUVWXYZabcdefghijklmnopqrstuvwxyz".
Definition is_lower : ascii -> bool := one_of "abcdefghijklmnopqrstuvwxyz".
Definition is_control (c : ascii) : bool := Nat.ltb (nat_of_ascii c) 32.

Definition hex_digits : string := "0123456789abcdef".

Definition hex_value (c : ascii) : option nat :=
  match index_of c hex_digits with
  | Some n => Some n
  | None => option_map (Nat.add 10) (index_of c "ABCDEF")
  end.

Definition hex_char (n : nat) : ascii :=
  match String.get n hex_digits with
  | Some c => c
  | None => "0"%char
  end.

(** Longest prefix of characters satisfying [p], and the rest. *)
Fixpoint span (p : ascii -> bool) (s : string) : string * string :=
  match s with
  | EmptyString => (EmptyString, EmptyString)
  | String c rest =>
      if p c then let '(a, b) := span p rest in (String c a, b)
      else (EmptyString, s)
  end.

Definition snoc (s : string) (c : ascii) : string := s ++ String c EmptyString.

End Chars.
Export Chars.

(** ** Base64 text *)

Module Base64.

(** The base64 helper (utils/base64) is not among the sources; [encode] and
    [decode] below stand for its two functions. *)

(** A six-bit group, most significant bit first. *)
Definition sextet : Type := (bool * bool * bool * bool * bool * bool)%type.

Definition alphabet : string :=
  "ABCDEFGHIJKLMNOPQRSTUVWXYZabcdefghijklmnopqrstuvwxyz0123456789+/".

Definition pad : ascii := "="%char.

Definition sextet_index (x : sextet) : nat :=
  let '(b5, b4, b3, b2, b1, b0) := x in
  32 * Nat.b2n b5 + 16 * Nat.b2n b4 + 8 * Nat.b2n b3
  + 4 * Nat.b2n b2 + 2 * Nat.b2n b1 + Nat.b2n b0.

Definition index_sextet (n : nat) : sextet :=
  (Nat.testbit n 5, Nat.testbit n 4, Nat.testbit n 3,
   Nat.testbit n 2, Nat.testbit n 1, Nat.testbit n 0).

Definition sextet_char (x : sextet) : ascii :=
  match String.get (sextet_index x) alphabet with
  | Some c => c
  | None => pad
  end.

Definition char_sextet (c : ascii) : option sextet :=
  option_map index_sextet (index_of c alphabet).

(** Three bytes make four characters. *)
Definition encode_three (a b c : ascii) : string :=
  let '(Ascii a0 a1 a2 a3 a4 a5 a6 a7) := a in
  let '(Ascii b0 b1 b2 b3 b4 b5 b6 b7) := b in
  let '(Ascii c0 c1 c2 c3 c4 c5 c6 c7) := c in
  String (sextet_char (a7, a6, a5, a4, a3, a2))
    (String (sextet_char (a1, a0, b7, b6, b5, b4))
       (String (sextet_char (b3, b2, b1, b0, c7, c6))
          (String (sextet_char (c5, c4, c3, c2, c1, c0)) EmptyString))).

Definition encode_two (a b : ascii) : string :=
  let '(Ascii a0 a1 a2 a3 a4 a5 a6 a7) := a in
  let '(Ascii b0 b1 b2 b3 b4 b5 b6 b7) := b in
  String (sextet_char (a7, a6, a5, a4, a3, a2))
    (String (sextet_char (a1, a0, b7, b6, b5, b4))
       (String (sextet_char (b3, b2, b1, b0, false, false))
          (String pad EmptyString))).

Definition encode_one (a : ascii) : string :=
  let '(Ascii a0 a1 a2 a3 a4 a5 a6 a7) := a in
  String (sextet_char (a7, a6, a5, a4, a3, a2))
    (String (sextet_char (a1, a0, false, false, false, false))
       (String pad (String pad EmptyString))).

(** Modelled from the spec: [base64.encode] of utils/base64, which is not
    among the sources.  The spec has the result encoder "base64-encode" the
    JSON text, "strictly symmetric" with the decoding of a token: the
    standard alphabet, three bytes to four characters, [=] padding. *)
Fixpoint encode (s : string) : string :=
  match s with
  | EmptyString => EmptyString
  | String a EmptyString => encode_one a
  | String a (String b EmptyString) => encode_two a b
  | String a (String b (String c rest)) => encode_three a b c ++ encode rest
  end.

Definition decode_three (c1 c2 c3 c4 : ascii) : option string :=
  match char_sextet c1, char_sextet c2, char_sextet c3, char_sextet c4 with
  | Some (a7, a6, a5, a4, a3, a2), Some (a1, a0, b7, b6, b5, b4),
    Some (b3, b2, b1, b0, c7, c6), Some (c5, c4, c3, c2, c1, c0) =>
      Some (String (Ascii a0 a1 a2 a3 a4 a5 a6 a7)
              (String (Ascii b0 b1 b2 b3 b4 b5 b6 b7)
                 (String (Ascii c0 c1 c2 c3 c4 c5 c6 c7) EmptyString)))
  | _, _, _, _ => None
  end.

(** Two bytes before one [=]: the two spare bits must be clear. *)
Definition decode_two (c1 c2 c3 : ascii) : option string :=
  match char_sextet c1, char_sextet c2, char_sextet c3 with
  | Some (a7, a6, a5, a4, a3, a2), Some (a1, a0, b7, b6, b5, b4),
    Some (b3, b2, b1, b0, false, false) =>
      Some (String (Ascii a0 a1 a2 a3 a4 a5 a6 a7)
              (String (Ascii b0 b1 b2 b3 b4 b5 b6 b7) EmptyString))
  | _, _, _ => None
  end.

(** One byte before [==]: the four spare bits must be clear. *)
Definition decode_one (c1 c2 : ascii) : option string :=
  match char_sextet c1, char_sextet c2 with
  | Some (a7, a6, a5, a4, a3, a2), Some (a1, a0, false, false, false, false) =>
      Some (String (Ascii a0 a1 a2 a3 a4 a5 a6 a7) EmptyString)
  | _, _ => None
  end.

(** Modelled from the spec: the text that "base64-decoding" gives, the
    inverse of [encode]; [None] when the string is not base64.  Padding may
    only close the last group of four. *)
Fixpoint decode_text (s : string) : option string :=
  match s with
  | EmptyString => Some EmptyString
  | String c1 (String c2 (String c3 (String c4 rest))) =>
      if Ascii.eqb c4 pad then
        match rest with
        | EmptyString =>
            if Ascii.eqb c3 pad then decode_one c1 c2 else decode_two c1 c2 c3
        | String _ _ => None
        end
      else
        match decode_three c1 c2 c3 c4, decode_text rest with
        | Some abc, Some t => Some (abc ++ t)
        | _, _ => None
        end
  | _ => None
  end.

(** What [base64.decode] yields for a string that is not base64: it raises,
    or it returns one of the falsy values. *)
Inductive Falsy : Type := FUndefined | FNull | FFalse.

Definition falsy_value (f : Falsy) : JsValue :=
  match f with
  | FUndefined => JUndefined
  | FNull => JNull
  | FFalse => JBool false
  end.

Inductive Undecodable : Type :=
| Raises
| Yields (f : Falsy).

(** What [base64.decode] hands back: a text or a falsy value. *)
Inductive Decoded : Type :=
| Text (s : string)
| NoText (f : Falsy).

(** Modelled from the spec: [base64.decode] of utils/base64, which is not
    among the sources.  The spec has it yield the decoded text, possibly
    "an empty/undefined result"; how it reports a string that is not base64
    is the parameter [u]. *)
Definition decode (u : Undecodable) (token : string) : Completion Decoded :=
  match decode_text token with
  | Some s => Return (Text s)
  | None =>
      match u with
      | Raises => Throw DecoderException
      | Yields f => Return (NoText f)
      end
  end.

End Base64.

(** ** JSON text *)

Module JSON.

(** *** [JSON.stringify] *)

Definition escape_char (c : ascii) : string :=
  if Ascii.eqb c dquote then String backslash (String dquote EmptyString)
  else if Ascii.eqb c backslash then String backslash (String backslash EmptyString)
  else if Ascii.eqb c backspace then String backslash "b"
  else if Ascii.eqb c formfeed then String backslash "f"
  else if Ascii.eqb c newline then String backslash "n"
  else if Ascii.eqb c creturn then String backslash "r"
  else if Ascii.eqb c tab then String backslash "t"
  else if is_control c then
    String backslash
      ("u00" ++ String (hex_char (nat_of_ascii c / 16))
                  (String (hex_char (nat_of_ascii c mod 16)) EmptyString))
  else String c EmptyString.

Fixpoint escape (s : string) : string :=
  match s with
  | EmptyString => EmptyString
  | String c rest => escape_char c ++ escape rest
  end.

Definition quote (s : string) : string :=
  String dquote (escape s ++ String dquote EmptyString).

(** [None] is [undefined]: a property holding it is left out, an array
    element holding it is written [null]. *)
Fixpoint stringify (v : JsValue) : option string :=
  match v with
  | JUndefined | JBuiltin _ => None
  | JNull => Some "null"
  | JBool true => Some "true"
  | JBool false => Some "false"
  | JNumber literal => Some literal
  | JString s => Some (quote s)
  | JArray elems =>
      Some ("[" ++ String.concat ","
                     (map (fun e => match stringify e with
                                    | Some t => t
                                    | None => "null"
                                    end) elems) ++ "]")
  | JObject fields =>
      Some ("{" ++ String.concat ","
                     (flat_map (fun kv => match stringify (snd kv) with
                                          | Some t => [quote (fst kv) ++ ":" ++ t]
                                          | None => []
                                          end) fields) ++ "}")
  end.

(** *** [JSON.parse]: the lexer *)

Inductive Token : Type :=
| TLBrace | TRBrace | TLBracket | TRBracket | TColon | TComma
| TString (s : string)
| TNumber (literal : string)
| TTrue | TFalse | TNull.

Inductive LexState : Type :=
| LDefault
| LString (acc : string)
| LEscape (acc : string)
| LUnicode (acc : string) (seen : nat) (code : nat)
| LNumber (literal : string)
| LWord (letters : string).

Definition is_space (c : ascii) : bool :=
  Ascii.eqb c " " || Ascii.eqb c tab || Ascii.eqb c newline || Ascii.eqb c creturn.

Definition is_number_char (c : ascii) : bool := is_digit c || one_of "+-.eE" c.

(** At least one digit, then the rest. *)
Definition digits (s : string) : option string :=
  match span is_digit s with
  | (EmptyString, _) => None
  | (String _ _, rest) => Some rest
  end.

Definition exponent_opt (s : string) : bool :=
  match s with
  | EmptyString => true
  | String c rest =>
      if one_of "eE" c then
        match digits (match rest with
                      | String sign rest' => if one_of "+-" sign then rest' else rest
                      | EmptyString => rest
                      end) with
        | Some EmptyString => true
        | _ => false
        end
      else false
  end.

Definition fraction_opt (s : string) : bool :=
  match s with
  | String "." rest =>
      match digits rest with
      | Some rest' => exponent_opt rest'
      | None => false
      end
  | _ => exponent_opt s
  end.

(** The JSON number grammar: an optional minus, an integer part without a
    leading zero, an optional fraction and an optional exponent. *)
Definition valid_number (s : string) : bool :=
  match (match s with String "-" rest => rest | _ => s end) with
  | String "0" rest => fraction_opt rest
  | unsigned =>
      match digits unsigned with
      | Some rest => fraction_opt rest
      | None => false
      end
  end.

Definition word_token (w : string) : option Token :=
  if String.eqb w "true" then Some TTrue
  else if String.eqb w "false" then Some TFalse
  else if String.eqb w "null" then Some TNull
  else None.

(** A character met outside any literal. *)
Definition lex_default (c : ascii) : option (list Token * LexState) :=
  if is_space c then Some ([], LDefault)
  else if Ascii.eqb c "{" then Some ([TLBrace], LDefault)
  else if Ascii.eqb c "}" then Some ([TRBrace], LDefault)
  else if Ascii.eqb c "[" then Some ([TLBracket], LDefault)
  else if Ascii.eqb c "]" then Some ([TRBracket], LDefault)
  else if Ascii.eqb c ":" then Some ([TColon], LDefault)
  else if Ascii.eqb c "," then Some ([TComma], LDefault)
  else if Ascii.eqb c dquote then Some ([], LString EmptyString)
  else if Ascii.eqb c "-" || is_digit c then Some ([], LNumber (String c EmptyString))
  else if is_lower c then Some ([], LWord (String c EmptyString))
  else None.

(** The token a pending number or word makes when it ends. *)
Definition lex_flush (st : LexState) : option (list Token) :=
  match st with
  | LDefault => Some []
  | LNumber literal => if valid_number literal then Some [TNumber literal] else None
  | LWord w => option_map (fun t => [t]) (word_token w)
  | LString _ | LEscape _ | LUnicode _ _ _ => None
  end.

Definition lex_escape (acc : string) (c : ascii) : option LexState :=
  if Ascii.eqb c dquote || Ascii.eqb c backslash || Ascii.eqb c "/"
  then Some (LString (snoc acc c))
  else if Ascii.eqb c "b" then Some (LString (snoc acc backspace))
  else if Ascii.eqb c "f" then Some (LString (snoc acc formfeed))
  else if Ascii.eqb c "n" then Some (LString (snoc acc newline))
  else if Ascii.eqb c "r" then Some (LString (snoc acc creturn))
  else if Ascii.eqb c "t" then Some (LString (snoc acc tab))
  else if Ascii.eqb c "u" then Some (LUnicode acc 0 0)
  else None.

(** One character of input.  A [\u] escape naming a code unit above 0xFF
    is refused: such a unit is outside the model. *)
Definition lex_step (st : LexState) (c : ascii) : option (list Token * LexState) :=
  match st with
  | LDefault => lex_default c
  | LString acc =>
      if Ascii.eqb c dquote then Some ([TString acc], LDefault)
      else if Ascii.eqb c backslash then Some ([], LEscape acc)
      else if is_control c then None
      else Some ([], LString (snoc acc c))
  | LEscape acc => option_map (fun st' => ([], st')) (lex_escape acc c)
  | LUnicode acc seen code =>
      match hex_value c with
      | Some d =>
          let code' := 16 * code + d in
          if Nat.eqb seen 3 then
            if Nat.ltb code' 256 then Some ([], LString (snoc acc (ascii_of_nat code')))
            else None
          else Some ([], LUnicode acc (S seen) code')
      | None => None
      end
  | LNumber literal =>
      if is_number_char c then Some ([], LNumber (snoc literal c))
      else
        match lex_flush st, lex_default c with
        | Some ts, Some (ts', st') => Some ((ts ++ ts')%list, st')
        | _, _ => None
        end
  | LWord w =>
      if is_lower c then Some ([], LWord (snoc w c))
      else
        match lex_flush st, lex_default c with
        | Some ts, Some (ts', st') => Some ((ts ++ ts')%list, st')
        | _, _ => None
        end
  end.

(** *** [JSON.parse]: the parser *)

(** An open container: the elements read so far, or the fields read so far
    and the key whose value is awaited. *)
Inductive Frame : Type :=
| FArray (elems : list JsValue)
| FObject (fields : list (string * JsValue)) (key : string).

Inductive ParseState : Type :=
| PValue (stack : list Frame)
| PArrayStart (stack : list Frame)
| PObjectStart (stack : list Frame)
| PKey (fields : list (string * JsValue)) (stack : list Frame)
| PColon (fields : list (string * JsValue)) (key : string) (stack : list Frame)
| PAfter (v : JsValue) (stack : list Frame).

Definition parse_value_start (t : Token) (stack : list Frame) : option ParseState :=
  match t with
  | TString s => Some (PAfter (JString s) stack)
  | TNumber n => Some (PAfter (JNumber n) stack)
  | TTrue => Some (PAfter (JBool true) stack)
  | TFalse => Some (PAfter (JBool false) stack)
  | TNull => Some (PAfter JNull stack)
  | TLBracket => Some (PArrayStart stack)
  | TLBrace => Some (PObjectStart stack)
  | _ => None
  end.

Definition parse_step (st : ParseState) (t : Token) : option ParseState :=
  match st with
  | PValue stack => parse_value_start t stack
  | PArrayStart stack =>
      match t with
      | TRBracket => Some (PAfter (JArray []) stack)
      | _ => parse_value_start t (FArray [] :: stack)
      end
  | PObjectStart stack =>
      match t with
      | TRBrace => Some (PAfter (JObject []) stack)
      | TString k => Some (PColon [] k stack)
      | _ => None
      end
  | PKey fields stack =>
      match t with
      | TString k => Some (PColon fields k stack)
      | _ => None
      end
  | PColon fields k stack =>
      match t with
      | TColon => Some (PValue (FObject fields k :: stack))
      | _ => None
      end
  | PAfter v (FArray elems :: stack) =>
      match t with
      | TComma => Some (PValue (FArray (elems ++ [v])%list :: stack))
      | TRBracket => Some (PAfter (JArray (elems ++ [v])%list) stack)
      | _ => None
      end
  | PAfter v (FObject fields k :: stack) =>
      match t with
      | TComma => Some (PKey (set_property fields k v) stack)
      | TRBrace => Some (PAfter (JObject (set_property fields k v)) stack)
      | _ => None
      end
  | PAfter _ [] => None
  end.

(** The tokens one character completes (at most two) go to the parser. *)
Fixpoint feed (st : ParseState) (ts : list Token) : option ParseState :=
  match ts with
  | [] => Some st
  | t :: rest =>
      match parse_step st t with
      | Some st' => feed st' rest
      | None => None
      end
  end.

(** The text is read once, character by character. *)
Fixpoint run (p : ParseState) (l : LexState) (text : string) : option JsValue :=
  match text with
  | EmptyString =>
      match lex_flush l with
      | Some ts =>
          match feed p ts with
          | Some (PAfter v []) => Some v
          | _ => None
          end
      | None => None
      end
  | String c rest =>
      match lex_step l c with
      | Some (ts, l') =>
          match feed p ts with
          | Some p' => run p' l' rest
          | None => None
          end
      | None => None
      end
  end.

(** [JSON.parse]; [None] is the [SyntaxError]. *)
Definition parse (text : string) : option JsValue := run (PValue []) LDefault text.

End JSON.

(** Double quotes written as single ones, for readable JSON samples. *)
Fixpoint json (s : string) : string :=
  match s with
  | EmptyString => EmptyString
  | String c rest => String (if Ascii.eqb c "'" then dquote else c) (json rest)
  end.


(** ** URL origins *)

Module Origin.

Definition is_host_char (c : ascii) : bool :=
  is_letter c || is_digit c || one_of ".-" c.

(** Modelled from the spec: [getOrigin] (utils/getOrigin) is not among the
    sources.  The spec calls its result "the origin (scheme+host+port)" of a
    URL: the scheme, [://], the host and, when the URL names one, [:port];
    path, query and fragment are dropped.  A value that is not such a URL
    has no origin ([null]). *)
Definition getOrigin (url : JsValue) : JsValue :=
  match url with
  | JString s =>
      match span is_letter s with
      | (String _ _ as scheme, String ":" (String "/" (String "/" rest))) =>
          match span is_host_char rest with
          | (String _ _ as host, after) =>
              match after with
              | String ":" after' =>
                  match span is_digit after' with
                  | (String _ _ as port, _) => JString (scheme ++ "://" ++ host ++ ":" ++ port)
                  | (EmptyString, _) => JString (scheme ++ "://" ++ host)
                  end
              | _ => JString (scheme ++ "://" ++ host)
              end
          | (EmptyString, _) => JNull
          end
      | _ => JNull
      end
  | _ => JNull
  end.

End Origin.

(** ** The module's types (../types) and what it imports from ../config *)

(** Modelled from the spec: [ResultObject], declared in ../types, which is
    not among the sources.  The spec gives it the completion indicator
    [threeDSCompInd] and the transaction status [transStatus], either of
    which may be absent; both are strings. *)
Record ResultObject : Type := {
  threeDSCompInd : option string;
  transStatus : option string
}.

Record ErrorObject : Type := {
  errorCode : string;
  message : JsValue
}.

Module CReqData.
Record t : Type := {
  acsTransID : JsValue;
  messageVersion : JsValue;
  threeDSServerTransID : JsValue;
  messageType : string;
  challengeWindowSize : string
}.
End CReqData.

Module ChallengeData.
Record t : Type := {
  acsURL : JsValue;
  cReqData : CReqData.t;
  iframeSizeArr : option (string * string);
  postMessageDomain : JsValue
}.
End ChallengeData.

Module FingerPrintData.
Record t : Type := {
  threeDSServerTransID : JsValue;
  threeDSMethodURL : JsValue;
  threeDSMethodNotificationURL : JsValue;
  postMessageDomain : JsValue
}.
End FingerPrintData.

(** The constants of ../config, which is not among the sources: the table of
    window sizes (a code to its width and height), the default code, the
    table of error messages and the key [ERRORS.UNKNOWN]. *)
Record Config : Type := {
  CHALLENGE_WINDOW_SIZES : gmap string (string * string);
  DEFAULT_CHALLENGE_WINDOW_SIZE : string;
  ERROR_MESSAGES : gmap string string;
  ERRORS_UNKNOWN : string
}.

(** ** utils.ts *)

Module Utils.

(** The functions are stated over what the module imports: the constants of
    ../config, [getOrigin], and the way [base64.decode] reports a string
    that is not base64. *)
Section Imports.

Variable config : Config.
Variable getOrigin : JsValue -> JsValue.
Variable undecodable : Base64.Undecodable.

(** [decodedToken && JSON.parse(decodedToken)], the parse alone being inside
    the [try]. *)
Definition decodeAndParseToken (token : string) : Completion JsValue :=
  let! decodedToken := Base64.decode undecodable token in
  match decodedToken with
  | Base64.Text s =>
      if string_truthy s then
        match JSON.parse s with
        | Some v => Return v
        | None => Throw (Error "Could not decode token")
        end
      else Return (JString s)
  | Base64.NoText f => Return (Base64.falsy_value f)
  end.

(** The text an argument stands for: [undefined] reads as its name. *)
Definition text_of (o : option string) : string :=
  match o with
  | Some t => t
  | None => "undefined"
  end.

Definition encodeResult (result : ResultObject) (type : string) : Completion string :=
  let threeDSCompInd := threeDSCompInd result in
  let transStatus := transStatus result in
  if negb (truthy threeDSCompInd) && negb (truthy transStatus) then
    Throw (Error "No threeDS2 request details found")
  else if String.eqb type "IdentifyShopper" then
    Return (Base64.encode
              (text_of (JSON.stringify (JObject [("threeDSCompInd", of_option threeDSCompInd)]))))
  else if String.eqb type "ChallengeShopper" then
    Return (Base64.encode
              (text_of (JSON.stringify (JObject [("transStatus", of_option transStatus)]))))
  else Throw (Error "No data available to create a result").

(** [Object.prototype.hasOwnProperty.call(table, k)] *)
Definition hasOwnProperty {V} (table : gmap string V) (k : string) : bool :=
  match table !! k with
  | Some _ => true
  | None => false
  end.

Definition validateChallengeWindowSize (sizeStr : string) : string :=
  let sizeString := if Nat.eqb (String.length sizeStr) 1 then "0" ++ sizeStr else sizeStr in
  let hasSize := hasOwnProperty (CHALLENGE_WINDOW_SIZES config) sizeString in
  if hasSize then sizeString else DEFAULT_CHALLENGE_WINDOW_SIZE config.

(** [None] is [undefined]. *)
Definition getChallengeWindowSize (sizeStr : string) : option (string * string) :=
  CHALLENGE_WINDOW_SIZES config !! validateChallengeWindowSize sizeStr.

Definition prepareChallengeData (token size : string) (notificationURL : option string)
  : Completion ChallengeData.t :=
  let! decodedChallengeToken := decodeAndParseToken token in
  let! _ := require_object_coercible decodedChallengeToken in
  let acsTransID := get decodedChallengeToken "acsTransID" in
  let acsURL := get decodedChallengeToken "acsURL" in
  let messageVersion := get decodedChallengeToken "messageVersion" in
  let threeDSNotificationURL := get decodedChallengeToken "threeDSNotificationURL" in
  let threeDSServerTransID := get decodedChallengeToken "threeDSServerTransID" in
  let receivedNotificationURL :=
    if truthy notificationURL then of_option notificationURL else threeDSNotificationURL in
  let notificationURLOrigin := getOrigin receivedNotificationURL in
  Return {|
    ChallengeData.acsURL := acsURL;
    ChallengeData.cReqData := {|
      CReqData.acsTransID := acsTransID;
      CReqData.messageVersion := messageVersion;
      CReqData.threeDSServerTransID := threeDSServerTransID;
      CReqData.messageType := "CReq";
      CReqData.challengeWindowSize := validateChallengeWindowSize size
    |};
    ChallengeData.iframeSizeArr := getChallengeWindowSize size;
    ChallengeData.postMessageDomain := notificationURLOrigin
  |}.

Definition prepareFingerPrintData (token : string) (notificationURL : option string)
  : Completion FingerPrintData.t :=
  let! decodedFingerPrintToken := decodeAndParseToken token in
  let! _ := require_object_coercible decodedFingerPrintToken in
  let threeDSMethodNotificationURL := get decodedFingerPrintToken "threeDSMethodNotificationURL" in
  let threeDSMethodURL := get decodedFingerPrintToken "threeDSMethodUrl" in
  let threeDSServerTransID := get decodedFingerPrintToken "threeDSServerTransID" in
  let receivedNotificationURL :=
    if truthy notificationURL then of_option notificationURL
    else threeDSMethodNotificationURL in
  let notificationURLOrigin := getOrigin receivedNotificationURL in
  Return {|
    FingerPrintData.threeDSServerTransID := threeDSServerTransID;
    FingerPrintData.threeDSMethodURL := threeDSMethodURL;
    FingerPrintData.threeDSMethodNotificationURL := receivedNotificationURL;
    FingerPrintData.postMessageDomain := notificationURLOrigin
  |}.

(** A read [table[k]] of a plain object holding strings: the own entry, else
    what the object inherits. *)
Definition read (table : gmap string string) (k : string) : JsValue :=
  match table !! k with
  | Some m => JString m
  | None => inherited k
  end.

Definition handleErrorCode (errorCode : string) : ErrorObject :=
  let unknownMessage := read (ERROR_MESSAGES config) (ERRORS_UNKNOWN config) in
  let message :=
    let found := read (ERROR_MESSAGES config) errorCode in
    if to_boolean found then found else unknownMessage in
  {| errorCode := errorCode; message := message |}.

End Imports.

(** The payload handed back to the checkout: [{ data: { details, paymentData,
    threeDSAuthenticationOnly } }]. *)
Record ResolveDataBody : Type := {
  details : list (string * JsValue);
  paymentData : string;
  threeDSAuthenticationOnly : bool
}.

Record ResolveData : Type := {
  data : ResolveDataBody
}.

Definition createResolveData (dataKey result paymentData : string) (authenticateOnly : bool)
  : ResolveData :=
  {| data := {|
       details := [(dataKey, JString result)];
       paymentData := paymentData;
       threeDSAuthenticationOnly := authenticateOnly
     |} |}.

(** [window.btoa]: the standard base64 of a string of 8-bit code units. *)
Definition btoa (dataStr : string) : string := Base64.encode dataStr.

(** [s.split(sep)[0]]: what comes before the first [sep]. *)
Fixpoint before_first (sep : ascii) (s : string) : string :=
  match s with
  | EmptyString => EmptyString
  | String c rest => if Ascii.eqb c sep then EmptyString else String c (before_first sep rest)
  end.

(** [s.replace(/a/g, b)] for single characters. *)
Fixpoint replace_all (a b : ascii) (s : string) : string :=
  match s with
  | EmptyString => EmptyString
  | String c rest => String (if Ascii.eqb c a then b else c) (replace_all a b rest)
  end.

Definition encodeBase64URL (dataStr : string) : string :=
  let base64Data := btoa dataStr in
  let base64url := before_first "=" base64Data in
  let base64url := replace_all "+" "-" base64url in
  let base64url := replace_all "/" "_" base64url in
  base64url.

Definition fingerprintProps : list string :=
  ["createFromAction"; "onAdditionalDetails"; "challengeWindowSize"; "notificationURL"].
Definition challengeProps : list string := ["challengeWindowSize"; "notificationURL"].

Section Pick.

(** [pick(keys).from(obj)] of SecuredFields/utils, which is not among the
    sources: it hands back a new object, given here by its own properties. *)
Variable pick : list string -> list (string * JsValue) -> list (string * JsValue).

(** [props] is an object, given by its own properties; [None] is
    [undefined]; the two [if]s are written as the source has them. *)
Definition get3DS2Props (actionSubtype : string) (props : list (string * JsValue))
  : option (list (string * JsValue)) :=
  let isFingerprint := String.eqb actionSubtype "fingerprint" in
  let rtnObj : option (list (string * JsValue)) := None in
  let rtnObj :=
    if isFingerprint then
      let rtnObj := pick fingerprintProps props in
      let rtnObj :=
        set_property rtnObj "showSpinner"
          (JBool (negb (to_boolean (get (JObject props) "isDropin")))) in
      let rtnObj := set_property rtnObj "statusType" (JString "loading") in
      Some rtnObj
    else rtnObj in
  let rtnObj :=
    if negb isFingerprint then
      let rtnObj := pick challengeProps props in
      let rtnObj := set_property rtnObj "statusType" (JString "custom") in
      Some rtnObj
    else rtnObj in
  rtnObj.

End Pick.

End Utils.
Import Utils.

(** ** The screen-reader panel (SRPanel) *)

Module SRPanel.

(** The argument of [setMessages]: a string, an array of strings, or nothing
    ([undefined] or [null]). *)
Inductive Messages : Type :=
| NoMessages
| OneMessage (message : string)
| ManyMessages (messages : list string).

(** What the panel's component receives: [None] is [null]. *)
Definition PanelMessages : Type := option (list string).

(** [setMessages]: [enabled] is [this.props.enabled], [hasRef] tells whether
    [componentRef] has been set.  The result is the call made on the
    component, if any.  [panelMessages] stays [null] unless [messages] is
    truthy (an array always is, a string when it is not empty); a truthy
    string is put in an array. *)
Definition setMessages (enabled hasRef : bool) (messages : Messages)
  : Completion (option PanelMessages) :=
  if negb enabled then Return None
  else
    let panelMessages : PanelMessages :=
      match messages with
      | ManyMessages l => Some l
      | OneMessage m => if string_truthy m then Some [m] else None
      | NoMessages => None
      end in
    if hasRef then Return (Some panelMessages) else Throw TypeError.

End SRPanel.

(** ** The Click to Pay card list (CtPCards) *)

Module CtPCards.

(** [haystack.includes(needle)] *)
Fixpoint starts_with (needle haystack : string) : bool :=
  match needle, haystack with
  | EmptyString, _ => true
  | String a needle', String b haystack' => Ascii.eqb a b && starts_with needle' haystack'
  | String _ _, EmptyString => false
  end.

Fixpoint includes (needle haystack : string) : bool :=
  starts_with needle haystack
  || match haystack with
     | EmptyString => false
     | String _ rest => includes needle rest
     end.

Section Labels.

(** [i18n.get] of the Language class, which is not among the sources. *)
Variable i18n_get : string -> string.

(** [None] is [null]. *)
Definition getErrorLabel (errorCode : option string) : option string :=
  if negb (truthy errorCode) then None
  else
    let errorLabel := i18n_get ("ctp.errors." ++ text_of errorCode) in
    if includes "ctp.errors" errorLabel then Some (i18n_get "ctp.errors.UNKNOWN_ERROR")
    else Some errorLabel.

End Labels.

Section Cards.

(** A shopper card (models/ShopperCard is not among the sources), through
    the two flags the component reads. *)
Variable ShopperCard : Type.
Variable isExpired : ShopperCard -> bool.
Variable isDcfPopupEmbedded : ShopperCard -> bool.

(** The initial [checkoutCard]:
    [cards.find(card => !card.isExpired) || cards[0]]. *)
Definition initialCheckoutCard (cards : list ShopperCard) : option ShopperCard :=
  match find (fun card => negb (isExpired card)) cards with
  | Some card => Some card
  | None => nth_error cards 0
  end.

Definition isEveryCardExpired (cards : list ShopperCard) : bool :=
  forallb (fun card => isExpired card) cards.

(** The test of the effect that asks for the card component. *)
Definition displaysCardComponent (cards : list ShopperCard) : bool :=
  Nat.eqb (length cards) 0 || isEveryCardExpired cards.

(** [status === 'loading' && checkoutCard.isDcfPopupEmbedded] *)
Definition displayNetworkDcf (status : string) (checkoutCard : option ShopperCard)
  : Completion bool :=
  if String.eqb status "loading" then
    match checkoutCard with
    | Some card => Return (isDcfPopupEmbedded card)
    | None => Throw TypeError
    end
  else Return false.

(** [status !== 'loading' || !displayNetworkDcf] *)
Definition displayCardCheckoutView (status : string) (displayNetworkDcf : bool) : bool :=
  negb (String.eqb status "loading") || negb displayNetworkDcf.

(** What [doCheckout] does, in order. *)
Inductive Failure : Type :=
| SrciError (reason source scheme : string)
| OtherError (description : string).

Inductive Event (Payload : Type) : Type :=
| SetErrorCode (code : option string)
| OnSetStatus (status : string)
| Checkout (card : ShopperCard)
| OnSubmit (payload : Payload)
| ConsoleWarn (text : string)
| OnError (error : Failure).
Arguments SetErrorCode {Payload} code.
Arguments OnSetStatus {Payload} status.
Arguments Checkout {Payload} card.
Arguments OnSubmit {Payload} payload.
Arguments ConsoleWarn {Payload} text.
Arguments OnError {Payload} error.

(** The [catch] block. *)
Definition doCheckout_catch {Payload} (error : Failure) : list (Event Payload) :=
  match error with
  | SrciError reason source scheme =>
      [ SetErrorCode (Some reason);
        ConsoleWarn ("CtP - Checkout: Reason: " ++ reason ++ " / Source: " ++ source
                     ++ " / Scheme: " ++ scheme);
        OnError error ]
  | OtherError _ => [OnError error]
  end.

(** [doCheckout]: [checkout] settles the promise it returns with a payload
    or a failure; [onSetStatus] and [onSubmit] return or raise ([Some] is
    what they raise). *)
Definition doCheckout {Payload} (checkoutCard : option ShopperCard)
    (onSetStatus : string -> option Failure)
    (checkout : ShopperCard -> Payload + Failure)
    (onSubmit : Payload -> option Failure) : list (Event Payload) :=
  match checkoutCard with
  | None => []
  | Some card =>
      SetErrorCode None :: OnSetStatus "loading" ::
      match onSetStatus "loading" with
      | Some error => doCheckout_catch error
      | None =>
          Checkout card ::
          match checkout card with
          | inr error => doCheckout_catch error
          | inl payload =>
              OnSubmit payload ::
              match onSubmit payload with
              | Some error => doCheckout_catch error
              | None => []
              end
          end
      end
  end.

End Cards.

Arguments SetErrorCode {ShopperCard Payload} code.
Arguments OnSetStatus {ShopperCard Payload} status.
Arguments Checkout {ShopperCard Payload} card.
Arguments OnSubmit {ShopperCard Payload} payload.
Arguments ConsoleWarn {ShopperCard Payload} text.
Arguments OnError {ShopperCard Payload} error.
Arguments doCheckout_catch {ShopperCard Payload} error.
Arguments doCheckout {ShopperCard Payload} checkoutCard onSetStatus checkout onSubmit.

End CtPCards.

(** ** Sample inputs *)

Module Sample.

(** A configuration of the shape the spec describes: five window sizes
    [01] to [05] with the default among them, and a message table with its
    unknown-error entry. *)
Definition config : Config := {|
  CHALLENGE_WINDOW_SIZES :=
    list_to_map [ ("01", ("250px", "400px")); ("02", ("390px", "400px"));
                  ("03", ("500px", "600px")); ("04", ("600px", "400px"));
                  ("05", ("100%", "100%")) ];
  DEFAULT_CHALLENGE_WINDOW_SIZE := "02";
  ERROR_MESSAGES :=
    list_to_map [ ("timeout", "ThreeDS2 timed out");
                  ("unknownError", "An unknown error occurred") ];
  ERRORS_UNKNOWN := "unknownError"
|}.

(** The fingerprint token of the spec's scenario. *)
Definition fingerprintText : string :=
  json "{'threeDSServerTransID':'abc','threeDSMethodUrl':'https://acs.example/m','threeDSMethodNotificationURL':'https://merchant.example/notify'}".

Definition fingerprintToken : string :=
  "eyJ0aHJlZURTU2VydmVyVHJhbnNJRCI6ImFiYyIsInRocmVlRFNNZXRob2RVcmwiOiJodHRwczovL2Fjcy5leGFtcGxlL20iLCJ0aHJlZURTTWV0aG9kTm90aWZpY2F0aW9uVVJMIjoiaHR0cHM6Ly9tZXJjaGFudC5leGFtcGxlL25vdGlmeSJ9".

(** A challenge token. *)
Definition challengeText : string :=
  json "{'acsTransID':'acs-1','acsURL':'https://acs.example/challenge','messageVersion':'2.1.0','threeDSNotificationURL':'https://merchant.example/notify','threeDSServerTransID':'abc'}".

Definition challengeToken : string :=
  "eyJhY3NUcmFuc0lEIjoiYWNzLTEiLCJhY3NVUkwiOiJodHRwczovL2Fjcy5leGFtcGxlL2NoYWxsZW5nZSIsIm1lc3NhZ2VWZXJzaW9uIjoiMi4xLjAiLCJ0aHJlZURTTm90aWZpY2F0aW9uVVJMIjoiaHR0cHM6Ly9tZXJjaGFudC5leGFtcGxlL25vdGlmeSIsInRocmVlRFNTZXJ2ZXJUcmFuc0lEIjoiYWJjIn0=".

Definition challengeFields : list (string * JsValue) :=
  [ ("acsTransID", JString "acs-1"); ("acsURL", JString "https://acs.example/challenge");
    ("messageVersion", JString "2.1.0");
    ("threeDSNotificationURL", JString "https://merchant.example/notify");
    ("threeDSServerTransID", JString "abc") ].

Definition fingerprintFields : list (string * JsValue) :=
  [ ("threeDSServerTransID", JString "abc");
    ("threeDSMethodUrl", JString "https://acs.example/m");
    ("threeDSMethodNotificationURL", JString "https://merchant.example/notify") ].

End Sample.

(** The five permitted window sizes. *)
Definition size_codes : list string := ["01"; "02"; "03"; "04"; "05"].

(** The size string as [validateChallengeWindowSize] looks it up
    ([sizeString] there): one character is padded on the left. *)
Definition padded (sizeStr : string) : string :=
  if Nat.eqb (String.length sizeStr) 1 then "0" ++ sizeStr else sizeStr.

(** The own property [k] of a value: only an object has any of the names
    read in this module. *)
Definition own (v : JsValue) (k : string) : option JsValue :=
  match v with
  | JObject fields => own_property fields k
  | _ => None
  end.

(** The characters of a URL-safe base64 text. *)
Definition url_alphabet : string :=
  "ABCDEFGHIJKLMNOPQRSTUVWXYZabcdefghijklmnopqrstuvwxyz0123456789-_".

Fixpoint all_chars (p : ascii -> bool) (s : string) : bool :=
  match s with
  | EmptyString => true
  | String c rest => p c && all_chars p rest
  end.

(** What the two replacements of [encodeBase64URL] make of a character. *)
Definition url_char (c : ascii) : ascii :=
  let c := if Ascii.eqb c "+" then "-"%char else c in
  if Ascii.eqb c "/" then "_"%char else c.

(** What [encodeBase64URL] makes of a base64 text. *)
Definition url_safe (base64Data : string) : string :=
  replace_all "/" "_" (replace_all "+" "-" (before_first "=" base64Data)).

(** A [pick] for the samples: the listed keys that the object holds, with
    their values. *)
Definition sample_pick (keys : list string) (obj : list (string * JsValue))
  : list (string * JsValue) :=
  flat_map (fun k => match own_property obj k with
                     | Some v => [(k, v)]
                     | None => []
                     end) keys.

(** The standard base64 text that a URL-safe one stands for: the two
    replacements undone and the padding put back. *)
Definition restore_base64 (base64url : string) : string :=
  replace_all "_" "/" (replace_all "-" "+" base64url)
  ++ match String.length base64url mod 4 with
     | 2 => "=="
     | 3 => "="
     | _ => EmptyString
     end.

(** * Properties *)

(** ** Strings *)

Lemma append_cons (c : ascii) (s t : string) : String c s ++ t = String c (s ++ t).
Proof. reflexivity. Qed.

Lemma append_nil_l (t : string) : EmptyString ++ t = t.
Proof. reflexivity. Qed.

Lemma append_assoc (s t u : string) : (s ++ t) ++ u = s ++ (t ++ u).
Proof. induction s as [|c s IH]; [reflexivity|]. rewrite !append_cons, IH. reflexivity. Qed.

Lemma snoc_append (s t : string) (c : ascii) : snoc s c ++ t = s ++ String c t.
Proof. unfold snoc. rewrite append_assoc. reflexivity. Qed.

(** ** Base64: decoding inverts encoding *)

Module Base64Facts.
Import Base64.

Lemma char_sextet_char (x : sextet) : char_sextet (sextet_char x) = Some x.
Proof.
  destruct x as [[[[[b5 b4] b3] b2] b1] b0].
  destruct b5, b4, b3, b2, b1, b0; reflexivity.
Qed.

Lemma sextet_char_not_pad (x : sextet) : Ascii.eqb (sextet_char x) pad = false.
Proof.
  destruct x as [[[[[b5 b4] b3] b2] b1] b0].
  destruct b5, b4, b3, b2, b1, b0; reflexivity.
Qed.

Lemma decode_three_encode (a b c : ascii) :
  exists c1 c2 c3 c4,
    encode_three a b c = String c1 (String c2 (String c3 (String c4 EmptyString)))
    /\ Ascii.eqb c4 pad = false
    /\ decode_three c1 c2 c3 c4 = Some (String a (String b (String c EmptyString))).
Proof.
  destruct a as [a0 a1 a2 a3 a4 a5 a6 a7], b as [b0 b1 b2 b3 b4 b5 b6 b7],
           c as [c0 c1 c2 c3 c4 c5 c6 c7].
  do 4 eexists. split; [reflexivity|]. split; [apply sextet_char_not_pad|].
  unfold decode_three. rewrite !char_sextet_char. reflexivity.
Qed.

Lemma decode_two_encode (a b : ascii) :
  exists c1 c2 c3,
    encode_two a b = String c1 (String c2 (String c3 (String pad EmptyString)))
    /\ Ascii.eqb c3 pad = false
    /\ decode_two c1 c2 c3 = Some (String a (String b EmptyString)).
Proof.
  destruct a as [a0 a1 a2 a3 a4 a5 a6 a7], b as [b0 b1 b2 b3 b4 b5 b6 b7].
  do 3 eexists. split; [reflexivity|]. split; [apply sextet_char_not_pad|].
  unfold decode_two. rewrite !char_sextet_char. reflexivity.
Qed.

Lemma decode_one_encode (a : ascii) :
  exists c1 c2,
    encode_one a = String c1 (String c2 (String pad (String pad EmptyString)))
    /\ decode_one c1 c2 = Some (String a EmptyString).
Proof.
  destruct a as [a0 a1 a2 a3 a4 a5 a6 a7].
  do 2 eexists. split; [reflexivity|].
  unfold decode_one. rewrite !char_sextet_char. reflexivity.
Qed.

(** Induction three characters at a time. *)
Lemma string_triples_ind (P : string -> Prop) :
  P EmptyString ->
  (forall a, P (String a EmptyString)) ->
  (forall a b, P (String a (String b EmptyString))) ->
  (forall a b c rest, P rest -> P (String a (String b (String c rest)))) ->
  forall s, P s.
Proof.
  intros H0 H1 H2 H3.
  assert (forall s, P s /\ (forall a, P (String a s)) /\ (forall a b, P (String a (String b s)))) as H.
  { induction s as [|c s (IH0 & IH1 & IH2)].
    - auto.
    - repeat split; auto. }
  intros s. apply H.
Qed.

Theorem decode_encode (s : string) : decode_text (encode s) = Some s.
Proof.
  induction s as [|a|a b|a b c rest IH] using string_triples_ind.
  - reflexivity.
  - destruct (decode_one_encode a) as (c1 & c2 & He & Hd).
    cbn [encode]. rewrite He. exact Hd.
  - destruct (decode_two_encode a b) as (c1 & c2 & c3 & He & Hp & Hd).
    cbn [encode]. rewrite He. cbn [decode_text].
    change (Ascii.eqb pad pad) with true. cbv iota. rewrite Hp. exact Hd.
  - destruct (decode_three_encode a b c) as (c1 & c2 & c3 & c4 & He & Hp & Hd).
    cbn [encode]. rewrite He, !append_cons, append_nil_l. cbn [decode_text].
    rewrite Hp, Hd, IH. reflexivity.
Qed.

End Base64Facts.

(** ** Samples *)

Example base64_encode_sample : Base64.encode "any carnal pleas" = "YW55IGNhcm5hbCBwbGVhcw==".
Proof. reflexivity. Qed.
Example base64_decode_sample : Base64.decode_text "YW55IGNhcm5hbCBwbGVhc3U=" = Some "any carnal pleasu".
Proof. reflexivity. Qed.
Example base64_decode_bad : Base64.decode_text "YR==" = None /\ Base64.decode_text "!" = None.
Proof. split; reflexivity. Qed.

Example parse_object :
  JSON.parse (json "{ 'a' : [1, -2.5e+3, true, null, {}], 'b':'x\ny', 'a': 'z' }")
  = Some (JObject [("a", JString "z"); ("b", JString ("x" ++ String newline "y"))]).
Proof. reflexivity. Qed.
Example parse_rejects :
  JSON.parse EmptyString = None /\ JSON.parse "[1,]" = None /\ JSON.parse "01" = None
  /\ JSON.parse "{'a':1}" = None /\ JSON.parse "1 2" = None /\ JSON.parse "tru" = None
  /\ JSON.parse (json "'a") = None /\ JSON.parse (json "{'a':1,}") = None.
Proof. repeat split; reflexivity. Qed.
Example parse_primitives :
  JSON.parse " 12 " = Some (JNumber "12") /\ JSON.parse "null" = Some JNull
  /\ JSON.parse (json "'\u0041\/\u00E9'") = Some (JString (String "A" (String "/" (String (ascii_of_nat 233) EmptyString))))
  /\ JSON.parse (json "'\u20ac'") = None.
Proof. repeat split; reflexivity. Qed.
Example stringify_sample :
  JSON.stringify (JObject [("a", JUndefined); ("b", JString (String dquote "x")); ("c", JArray [JUndefined; JNull])])
  = Some (json "{'b':'\'x','c':[null,null]}").
Proof. reflexivity. Qed.

(** ** JSON: parsing inverts the serialisation of a string *)

Module JSONFacts.
Import JSON.

(** Inside a string literal, the escape of a character reads back as that
    character. *)
Lemma run_escape_char (p : ParseState) (c : ascii) (acc rest : string) :
  run p (LString acc) (escape_char c ++ rest) = run p (LString (snoc acc c)) rest.
Proof.
  destruct c as [b0 b1 b2 b3 b4 b5 b6 b7].
  destruct b0, b1, b2, b3, b4, b5, b6, b7; reflexivity.
Qed.

Lemma run_escape (p : ParseState) (s acc rest : string) :
  run p (LString acc) (escape s ++ rest) = run p (LString (acc ++ s)) rest.
Proof.
  revert acc. induction s as [|c s IH]; intros acc.
  - rewrite append_nil_l.
    replace (acc ++ EmptyString) with acc; [reflexivity|].
    induction acc as [|a acc IHacc]; [reflexivity|]. rewrite append_cons, <- IHacc. reflexivity.
  - cbn [escape]. rewrite append_assoc, run_escape_char, IH, snoc_append. reflexivity.
Qed.

(** A quoted string is read as one string token holding the original. *)
Lemma run_quote (p : ParseState) (s rest : string) :
  run p LDefault (quote s ++ rest) =
  match parse_step p (TString s) with
  | Some p' => run p' LDefault rest
  | None => None
  end.
Proof.
  unfold quote. rewrite append_cons, append_assoc, append_cons, append_nil_l.
  change (run p LDefault (String dquote (escape s ++ String dquote rest)))
    with (run p (LString EmptyString) (escape s ++ String dquote rest)).
  rewrite run_escape, append_nil_l.
  transitivity (match feed p [TString s] with
                | Some p' => run p' LDefault rest
                | None => None
                end); [reflexivity|].
  cbn [feed]. destruct (parse_step p (TString s)); reflexivity.
Qed.

(** The text of an object with one string property. *)
Lemma stringify_single (k v : string) :
  stringify (JObject [(k, JString v)]) = Some ("{" ++ quote k ++ ":" ++ quote v ++ "}").
Proof.
  cbn [stringify flat_map snd fst app String.concat].
  rewrite !append_cons, !append_nil_l, !append_assoc. reflexivity.
Qed.

Lemma stringify_single_undefined (k : string) :
  stringify (JObject [(k, JUndefined)]) = Some "{}".
Proof. reflexivity. Qed.

(** Parsing that text gives the object back: one field, no other. *)
Theorem parse_stringify_single (k v : string) :
  parse ("{" ++ quote k ++ ":" ++ quote v ++ "}") = Some (JObject [(k, JString v)]).
Proof.
  unfold parse. rewrite append_cons, append_nil_l.
  change (run (PValue []) LDefault (String "{" (quote k ++ ":" ++ quote v ++ "}")))
    with (run (PObjectStart []) LDefault (quote k ++ ":" ++ quote v ++ "}")).
  rewrite run_quote. cbn [parse_step]. rewrite append_cons, append_nil_l.
  change (run (PColon [] k []) LDefault (String ":" (quote v ++ "}")))
    with (run (PValue [FObject [] k]) LDefault (quote v ++ "}")).
  rewrite run_quote. reflexivity.
Qed.

End JSONFacts.

(** ** Samples of the module's functions *)

Example sample_tokens :
  Sample.fingerprintToken = Base64.encode Sample.fingerprintText
  /\ Sample.challengeToken = Base64.encode Sample.challengeText.
Proof. split; reflexivity. Qed.

Example decode_challenge_token (u : Base64.Undecodable) :
  decodeAndParseToken u Sample.challengeToken = Return (JObject Sample.challengeFields).
Proof. reflexivity. Qed.

Example decode_fingerprint_token (u : Base64.Undecodable) :
  decodeAndParseToken u Sample.fingerprintToken = Return (JObject Sample.fingerprintFields).
Proof. reflexivity. Qed.

Example origin_samples :
  Origin.getOrigin (JString "https://merchant.example/notify") = JString "https://merchant.example"
  /\ Origin.getOrigin (JString "http://localhost:8080/a?b#c") = JString "http://localhost:8080"
  /\ Origin.getOrigin (JString "merchant.example") = JNull
  /\ Origin.getOrigin JUndefined = JNull.
Proof. repeat split; reflexivity. Qed.

Example validate_samples :
  validateChallengeWindowSize Sample.config "2" = "02"
  /\ validateChallengeWindowSize Sample.config "05" = "05"
  /\ validateChallengeWindowSize Sample.config "9" = "02"
  /\ validateChallengeWindowSize Sample.config EmptyString = "02"
  /\ validateChallengeWindowSize Sample.config "002" = "02".
Proof. repeat split; reflexivity. Qed.

Example encodeResult_sample :
  encodeResult {| threeDSCompInd := None; transStatus := Some "Y" |} "ChallengeShopper"
  = Return "eyJ0cmFuc1N0YXR1cyI6IlkifQ==".
Proof. reflexivity. Qed.

(** ** The result encoder *)

Section EncodeResult.

Import JSON.

(** Decoding and parsing the encoding of a one-string object gives it back. *)
Lemma decode_parse_single (k v : string) :
  exists text,
    Base64.decode_text (Base64.encode (text_of (stringify (JObject [(k, JString v)])))) = Some text
    /\ parse text = Some (JObject [(k, JString v)]).
Proof.
  rewrite JSONFacts.stringify_single. cbn [text_of].
  eexists. split; [apply Base64Facts.decode_encode|apply JSONFacts.parse_stringify_single].
Qed.

(** Case analysis on the truthiness of the two fields. *)
Ltac by_truthiness r :=
  unfold encodeResult;
  destruct (truthy (threeDSCompInd r)), (truthy (transStatus r));
  try discriminate; reflexivity.

Lemma encodeResult_guard (r : ResultObject) (type : string) :
  truthy (threeDSCompInd r) = false -> truthy (transStatus r) = false ->
  encodeResult r type = Throw (Error "No threeDS2 request details found").
Proof. intros H1 H2. unfold encodeResult. rewrite H1, H2. reflexivity. Qed.

Lemma encodeResult_identify (r : ResultObject) :
  truthy (threeDSCompInd r) || truthy (transStatus r) = true ->
  encodeResult r "IdentifyShopper"
  = Return (Base64.encode
              (text_of (stringify (JObject [("threeDSCompInd", of_option (threeDSCompInd r))])))).
Proof.
  intros H. by_truthiness r.
Qed.

Lemma encodeResult_challenge (r : ResultObject) :
  truthy (threeDSCompInd r) || truthy (transStatus r) = true ->
  encodeResult r "ChallengeShopper"
  = Return (Base64.encode
              (text_of (stringify (JObject [("transStatus", of_option (transStatus r))])))).
Proof.
  intros H. by_truthiness r.
Qed.

Lemma encodeResult_other (r : ResultObject) (type : string) :
  type <> "IdentifyShopper" -> type <> "ChallengeShopper" ->
  truthy (threeDSCompInd r) || truthy (transStatus r) = true ->
  encodeResult r type = Throw (Error "No data available to create a result").
Proof.
  intros H1 H2 H. unfold encodeResult.
  apply String.eqb_neq in H1, H2. rewrite H1, H2. by_truthiness r.
Qed.

(** C1. When the field that the flow type selects ([threeDSCompInd] for
    IdentifyShopper, [transStatus] for ChallengeShopper) holds a truthy
    value, [encodeResult] returns, and base64-decoding its output and
    parsing the text as JSON gives the object with exactly that one field
    and its original value: the other field of the result is not in it. *)
Theorem encodeResult_roundtrip (r : ResultObject) (v : string) :
  string_truthy v = true ->
  (threeDSCompInd r = Some v ->
   exists out text,
     encodeResult r "IdentifyShopper" = Return out
     /\ Base64.decode_text out = Some text
     /\ parse text = Some (JObject [("threeDSCompInd", JString v)]))
  /\ (transStatus r = Some v ->
      exists out text,
        encodeResult r "ChallengeShopper" = Return out
        /\ Base64.decode_text out = Some text
        /\ parse text = Some (JObject [("transStatus", JString v)])).
Proof.
  intros Hv. split; intros Hr.
  - rewrite encodeResult_identify by (rewrite Hr; cbn [truthy]; rewrite Hv; reflexivity).
    rewrite Hr. cbn [of_option].
    destruct (decode_parse_single "threeDSCompInd" v) as (text & Hd & Hp). eauto.
  - rewrite encodeResult_challenge
      by (rewrite Hr; cbn [truthy]; rewrite Hv; apply orb_true_r).
    rewrite Hr. cbn [of_option].
    destruct (decode_parse_single "transStatus" v) as (text & Hd & Hp). eauto.
Qed.

Lemma encodeResult_roundtrip_witness :
  string_truthy "Y" = true
  /\ exists out text,
       encodeResult {| threeDSCompInd := Some "N"; transStatus := Some "Y" |} "ChallengeShopper"
       = Return out
       /\ Base64.decode_text out = Some text
       /\ parse text = Some (JObject [("transStatus", JString "Y")]).
Proof.
  split; [reflexivity|].
  apply (encodeResult_roundtrip {| threeDSCompInd := Some "N"; transStatus := Some "Y" |} "Y");
    reflexivity.
Defined.

(** C4 as stated fails: a result that carries [transStatus] as the empty
    string is rejected under ChallengeShopper, and with both fields present
    and empty an unknown flow type gets the error of the guard, not the "No
    data available" one. *)
Lemma encodeResult_empty_transStatus_throws :
  transStatus {| threeDSCompInd := None; transStatus := Some EmptyString |} = Some EmptyString
  /\ encodeResult {| threeDSCompInd := None; transStatus := Some EmptyString |} "ChallengeShopper"
     = Throw (Error "No threeDS2 request details found")
  /\ ~ (exists out,
          encodeResult {| threeDSCompInd := None; transStatus := Some EmptyString |}
            "ChallengeShopper" = Return out)
  /\ encodeResult {| threeDSCompInd := Some EmptyString; transStatus := Some EmptyString |}
       "Authorise"
     = Throw (Error "No threeDS2 request details found").
Proof.
  split; [reflexivity|]. split; [reflexivity|]. split; [|reflexivity].
  intros [out H]. discriminate H.
Qed.

(** C4, amended.  [encodeResult] throws "No threeDS2 request details found"
    when both fields are absent, whatever the flow type; for a result whose
    [transStatus] is truthy it returns under ChallengeShopper and the output
    decodes to exactly the object holding [transStatus]; and for a flow type
    other than IdentifyShopper and ChallengeShopper it throws "No data
    available to create a result" when at least one field is truthy. *)
Theorem encodeResult_outcomes (r : ResultObject) (type : string) :
  (threeDSCompInd r = None -> transStatus r = None ->
   encodeResult r type = Throw (Error "No threeDS2 request details found"))
  /\ (forall s, transStatus r = Some s -> string_truthy s = true ->
      exists out text,
        encodeResult r "ChallengeShopper" = Return out
        /\ Base64.decode_text out = Some text
        /\ parse text = Some (JObject [("transStatus", JString s)]))
  /\ (type <> "IdentifyShopper" -> type <> "ChallengeShopper" ->
      truthy (threeDSCompInd r) || truthy (transStatus r) = true ->
      encodeResult r type = Throw (Error "No data available to create a result")).
Proof.
  split; [|split].
  - intros H1 H2. apply encodeResult_guard; [rewrite H1|rewrite H2]; reflexivity.
  - intros s Hr Hs.
    rewrite encodeResult_challenge
      by (rewrite Hr; cbn [truthy]; rewrite Hs; apply orb_true_r).
    rewrite Hr. cbn [of_option].
    destruct (decode_parse_single "transStatus" s) as (text & Hd & Hp). eauto.
  - apply encodeResult_other.
Qed.

Lemma encodeResult_outcomes_witness :
  encodeResult {| threeDSCompInd := None; transStatus := None |} "IdentifyShopper"
  = Throw (Error "No threeDS2 request details found")
  /\ (exists out text,
        encodeResult {| threeDSCompInd := None; transStatus := Some "Y" |} "ChallengeShopper"
        = Return out
        /\ Base64.decode_text out = Some text
        /\ parse text = Some (JObject [("transStatus", JString "Y")]))
  /\ encodeResult {| threeDSCompInd := None; transStatus := Some "Y" |} "Authorise"
     = Throw (Error "No data available to create a result").
Proof.
  split; [|split].
  - apply (encodeResult_outcomes {| threeDSCompInd := None; transStatus := None |});
      reflexivity.
  - apply (encodeResult_outcomes {| threeDSCompInd := None; transStatus := Some "Y" |} EmptyString);
      reflexivity.
  - apply (encodeResult_outcomes {| threeDSCompInd := None; transStatus := Some "Y" |});
      [discriminate|discriminate|reflexivity].
Defined.

(** C9. The guard of [encodeResult] tests truthiness, not presence: when
    both fields are present and falsy (both the empty string), it throws
    "No threeDS2 request details found", whatever the flow type. *)
Theorem encodeResult_falsy_fields (r : ResultObject) (type : string) :
  is_Some (threeDSCompInd r) -> is_Some (transStatus r) ->
  truthy (threeDSCompInd r) = false -> truthy (transStatus r) = false ->
  encodeResult r type = Throw (Error "No threeDS2 request details found").
Proof. intros _ _. apply encodeResult_guard. Qed.

Lemma encodeResult_falsy_fields_witness :
  is_Some (Some EmptyString) /\ truthy (Some EmptyString) = false
  /\ encodeResult {| threeDSCompInd := Some EmptyString; transStatus := Some EmptyString |} "ChallengeShopper"
     = Throw (Error "No threeDS2 request details found").
Proof.
  split; [eexists; reflexivity|]. split; [reflexivity|].
  apply (encodeResult_falsy_fields {| threeDSCompInd := Some EmptyString; transStatus := Some EmptyString |});
    try reflexivity; eexists; reflexivity.
Defined.

End EncodeResult.

(** ** The builders, the window size and the error classifier *)

Section Builders.

Variable config : Config.
Variable getOrigin : JsValue -> JsValue.
Variable undecodable : Base64.Undecodable.

Local Abbreviation decodeAndParseToken := (decodeAndParseToken undecodable).
Local Abbreviation validateChallengeWindowSize := (validateChallengeWindowSize config).
Local Abbreviation getChallengeWindowSize := (getChallengeWindowSize config).
Local Abbreviation prepareChallengeData := (prepareChallengeData config getOrigin undecodable).
Local Abbreviation prepareFingerPrintData := (prepareFingerPrintData getOrigin undecodable).
Local Abbreviation handleErrorCode := (handleErrorCode config).

(** *** Window size *)

Lemma hasOwnProperty_dom {V} (table : gmap string V) (codes : list string) (k : string) :
  dom table = list_to_set codes ->
  hasOwnProperty table k = true <-> In k codes.
Proof.
  intros Hdom. unfold hasOwnProperty.
  rewrite <- list_elem_of_In, <- (elem_of_list_to_set (C := gset string)), <- Hdom, elem_of_dom.
  destruct (table !! k) as [v|].
  - split; [eauto|reflexivity].
  - split; [discriminate|]. intros [v Hv]. discriminate.
Qed.

Lemma validate_padded (sizeStr : string) :
  validateChallengeWindowSize sizeStr
  = if hasOwnProperty (CHALLENGE_WINDOW_SIZES config) (padded sizeStr)
    then padded sizeStr else DEFAULT_CHALLENGE_WINDOW_SIZE config.
Proof. reflexivity. Qed.

Lemma padded_code (sizeStr : string) : In sizeStr size_codes -> padded sizeStr = sizeStr.
Proof.
  intros H. cbn in H.
  destruct H as [<-|[<-|[<-|[<-|[<-|[]]]]]]; reflexivity.
Qed.

(** C2. With the five sizes [01] to [05] in the table and the default one of
    them: a size string that, once padded, is none of the five gives the
    configured default (so do the empty string and any other text); one of
    the five is returned unchanged; and an input of one character is looked
    up with [0] before it, so that [2] gives [02] and [9] gives the default,
    never [09]. *)
Theorem validateChallengeWindowSize_spec :
  dom (CHALLENGE_WINDOW_SIZES config) = list_to_set size_codes ->
  In (DEFAULT_CHALLENGE_WINDOW_SIZE config) size_codes ->
  (forall sizeStr, ~ In (padded sizeStr) size_codes ->
     validateChallengeWindowSize sizeStr = DEFAULT_CHALLENGE_WINDOW_SIZE config)
  /\ (forall sizeStr, In sizeStr size_codes -> validateChallengeWindowSize sizeStr = sizeStr)
  /\ (forall c : ascii,
        (In (String "0" (String c EmptyString)) size_codes ->
         validateChallengeWindowSize (String c EmptyString) = String "0" (String c EmptyString))
        /\ (~ In (String "0" (String c EmptyString)) size_codes ->
            validateChallengeWindowSize (String c EmptyString)
            = DEFAULT_CHALLENGE_WINDOW_SIZE config))
  /\ validateChallengeWindowSize EmptyString = DEFAULT_CHALLENGE_WINDOW_SIZE config
  /\ validateChallengeWindowSize "2" = "02"
  /\ validateChallengeWindowSize "9" = DEFAULT_CHALLENGE_WINDOW_SIZE config
  /\ validateChallengeWindowSize "9" <> "09".
Proof.
  intros Hdom Hdef.
  assert (Hnot : forall sizeStr, ~ In (padded sizeStr) size_codes ->
            validateChallengeWindowSize sizeStr = DEFAULT_CHALLENGE_WINDOW_SIZE config).
  { intros sizeStr Hn. rewrite validate_padded.
    destruct (hasOwnProperty _ (padded sizeStr)) eqn:E; [|reflexivity].
    apply (hasOwnProperty_dom _ size_codes) in E; [contradiction|exact Hdom]. }
  assert (Hin : forall sizeStr, In (padded sizeStr) size_codes ->
            validateChallengeWindowSize sizeStr = padded sizeStr).
  { intros sizeStr Hi. rewrite validate_padded.
    apply (hasOwnProperty_dom _ size_codes _ Hdom) in Hi. rewrite Hi. reflexivity. }
  assert (H9 : validateChallengeWindowSize "9" = DEFAULT_CHALLENGE_WINDOW_SIZE config).
  { apply Hnot. cbn. intuition discriminate. }
  split; [exact Hnot|]. split; [|split; [|split; [|split; [|split]]]].
  - intros sizeStr Hi. rewrite Hin; rewrite (padded_code _ Hi); [reflexivity|exact Hi].
  - intros c. split; [apply (Hin (String c EmptyString))|apply (Hnot (String c EmptyString))].
  - apply Hnot. cbn. intuition discriminate.
  - apply Hin. cbn. auto.
  - exact H9.
  - rewrite H9. intros E. rewrite E in Hdef. cbn in Hdef. intuition discriminate.
Qed.

Lemma getChallengeWindowSize_valid (sizeStr : string) :
  is_Some (CHALLENGE_WINDOW_SIZES config !! DEFAULT_CHALLENGE_WINDOW_SIZE config) ->
  is_Some (getChallengeWindowSize sizeStr).
Proof.
  intros Hdef. unfold getChallengeWindowSize. rewrite validate_padded.
  unfold hasOwnProperty.
  destruct (CHALLENGE_WINDOW_SIZES config !! padded sizeStr) eqn:E; [|exact Hdef].
  rewrite E. eauto.
Qed.

(** *** The token codec *)

Lemma decodeAndParseToken_text (token text : string) :
  Base64.decode_text token = Some text ->
  decodeAndParseToken token
  = if string_truthy text then
      match JSON.parse text with
      | Some v => Return v
      | None => Throw (Error "Could not decode token")
      end
    else Return (JString text).
Proof. intros H. unfold Utils.decodeAndParseToken, Base64.decode. rewrite H. reflexivity. Qed.

Lemma decodeAndParseToken_undecodable (token : string) :
  Base64.decode_text token = None ->
  decodeAndParseToken token
  = match undecodable with
    | Base64.Raises => Throw DecoderException
    | Base64.Yields f => Return (Base64.falsy_value f)
    end.
Proof.
  intros H. unfold Utils.decodeAndParseToken, Base64.decode. rewrite H.
  destruct undecodable; reflexivity.
Qed.

(** C5, amended.  [decodeAndParseToken] throws "Could not decode token"
    exactly when the token is base64 for a non-empty text that is not valid
    JSON.  A non-empty valid text gives its value; the empty text is returned
    as it is, without throwing; and for a token that is not base64 the
    outcome is the decoder's own, its exception or its falsy value, not the
    "Could not decode token" error. *)
Theorem decodeAndParseToken_outcomes (token : string) :
  (decodeAndParseToken token = Throw (Error "Could not decode token")
   <-> exists text, Base64.decode_text token = Some text
                    /\ string_truthy text = true /\ JSON.parse text = None)
  /\ (forall text v, Base64.decode_text token = Some text -> string_truthy text = true ->
        JSON.parse text = Some v -> decodeAndParseToken token = Return v)
  /\ (Base64.decode_text token = Some EmptyString ->
      decodeAndParseToken token = Return (JString EmptyString))
  /\ (Base64.decode_text token = None ->
      decodeAndParseToken token
      = match undecodable with
        | Base64.Raises => Throw DecoderException
        | Base64.Yields f => Return (Base64.falsy_value f)
        end).
Proof.
  repeat split.
  - intros H. destruct (Base64.decode_text token) as [text|] eqn:E.
    + rewrite (decodeAndParseToken_text _ _ E) in H. exists text.
      destruct (string_truthy text); [|discriminate].
      destruct (JSON.parse text); [discriminate|auto].
    + rewrite (decodeAndParseToken_undecodable _ E) in H.
      destruct undecodable; discriminate.
  - intros (text & E & Ht & Hp).
    rewrite (decodeAndParseToken_text _ _ E), Ht, Hp. reflexivity.
  - intros text v E Ht Hp.
    rewrite (decodeAndParseToken_text _ _ E), Ht, Hp. reflexivity.
  - intros E. rewrite (decodeAndParseToken_text _ _ E). reflexivity.
  - apply decodeAndParseToken_undecodable.
Qed.

(** *** The parameter builders *)

Lemma prepareChallengeData_decoded (token size : string) (notificationURL : option string)
      (tok : JsValue) :
  decodeAndParseToken token = Return tok -> destructurable tok = true ->
  prepareChallengeData token size notificationURL
  = Return {|
      ChallengeData.acsURL := get tok "acsURL";
      ChallengeData.cReqData := {|
        CReqData.acsTransID := get tok "acsTransID";
        CReqData.messageVersion := get tok "messageVersion";
        CReqData.threeDSServerTransID := get tok "threeDSServerTransID";
        CReqData.messageType := "CReq";
        CReqData.challengeWindowSize := validateChallengeWindowSize size
      |};
      ChallengeData.iframeSizeArr := getChallengeWindowSize size;
      ChallengeData.postMessageDomain :=
        getOrigin (if truthy notificationURL then of_option notificationURL
                   else get tok "threeDSNotificationURL")
    |}.
Proof.
  intros H Hd. unfold Utils.prepareChallengeData, require_object_coercible.
  rewrite H. cbn [bind]. rewrite Hd. reflexivity.
Qed.

Lemma prepareFingerPrintData_decoded (token : string) (notificationURL : option string)
      (tok : JsValue) :
  decodeAndParseToken token = Return tok -> destructurable tok = true ->
  prepareFingerPrintData token notificationURL
  = Return {|
      FingerPrintData.threeDSServerTransID := get tok "threeDSServerTransID";
      FingerPrintData.threeDSMethodURL := get tok "threeDSMethodUrl";
      FingerPrintData.threeDSMethodNotificationURL :=
        (if truthy notificationURL then of_option notificationURL
         else get tok "threeDSMethodNotificationURL");
      FingerPrintData.postMessageDomain :=
        getOrigin (if truthy notificationURL then of_option notificationURL
                   else get tok "threeDSMethodNotificationURL")
    |}.
Proof.
  intros H Hd. unfold Utils.prepareFingerPrintData, require_object_coercible.
  rewrite H. cbn [bind]. rewrite Hd. reflexivity.
Qed.

(** C3. For a token that decodes (to a value that can be destructured) and
    any caller-supplied [notificationURL], both builders return, and their
    [postMessageDomain] is the origin of the caller's URL when one is
    provided (a non-empty string), and otherwise the origin of the URL in
    the token: [threeDSNotificationURL] for the challenge,
    [threeDSMethodNotificationURL] for the fingerprint. *)
Theorem postMessageDomain_precedence (token size : string) (notificationURL : option string)
        (tok : JsValue) :
  decodeAndParseToken token = Return tok -> destructurable tok = true ->
  exists cd fd,
    prepareChallengeData token size notificationURL = Return cd
    /\ prepareFingerPrintData token notificationURL = Return fd
    /\ match notificationURL with
       | Some (String _ _ as url) =>
           ChallengeData.postMessageDomain cd = getOrigin (JString url)
           /\ FingerPrintData.postMessageDomain fd = getOrigin (JString url)
       | _ =>
           ChallengeData.postMessageDomain cd = getOrigin (get tok "threeDSNotificationURL")
           /\ FingerPrintData.postMessageDomain fd
              = getOrigin (get tok "threeDSMethodNotificationURL")
       end.
Proof.
  intros H Hd. do 2 eexists.
  split; [apply (prepareChallengeData_decoded _ _ _ _ H Hd)|].
  split; [apply (prepareFingerPrintData_decoded _ _ _ H Hd)|].
  destruct notificationURL as [[|c url]|]; split; reflexivity.
Qed.

(** C8. For a token that decodes and any size string, the challenge data
    has [messageType] "CReq", has [acsTransID], [messageVersion] and
    [threeDSServerTransID] as they are in the decoded token, has the
    validated size as [challengeWindowSize], and has as [iframeSizeArr] the
    pair that the size table gives for that (possibly defaulted) code; the
    default code is taken to be in the table. *)
Theorem prepareChallengeData_fields (token size : string) (notificationURL : option string)
        (tok : JsValue) :
  is_Some (CHALLENGE_WINDOW_SIZES config !! DEFAULT_CHALLENGE_WINDOW_SIZE config) ->
  decodeAndParseToken token = Return tok -> destructurable tok = true ->
  exists cd,
    prepareChallengeData token size notificationURL = Return cd
    /\ CReqData.messageType (ChallengeData.cReqData cd) = "CReq"
    /\ CReqData.acsTransID (ChallengeData.cReqData cd) = get tok "acsTransID"
    /\ CReqData.messageVersion (ChallengeData.cReqData cd) = get tok "messageVersion"
    /\ CReqData.threeDSServerTransID (ChallengeData.cReqData cd) = get tok "threeDSServerTransID"
    /\ CReqData.challengeWindowSize (ChallengeData.cReqData cd)
       = validateChallengeWindowSize size
    /\ exists pair,
         CHALLENGE_WINDOW_SIZES config !! CReqData.challengeWindowSize (ChallengeData.cReqData cd)
         = Some pair
         /\ ChallengeData.iframeSizeArr cd = Some pair.
Proof.
  intros Hdef H Hd. eexists.
  split; [apply (prepareChallengeData_decoded _ _ _ _ H Hd)|].
  cbn. repeat split.
  destruct (getChallengeWindowSize_valid size Hdef) as [pair Hp].
  exists pair. split; exact Hp.
Qed.

(** C10. For a token that decodes, the [threeDSMethodNotificationURL] of
    the fingerprint data is the resolved URL: the caller's when one is
    provided (a non-empty string), so not the token's, and the token's
    [threeDSMethodNotificationURL] otherwise. *)
Theorem fingerprint_notificationURL_resolved (token : string) (notificationURL : option string)
        (tok : JsValue) :
  decodeAndParseToken token = Return tok -> destructurable tok = true ->
  exists fd,
    prepareFingerPrintData token notificationURL = Return fd
    /\ FingerPrintData.threeDSMethodNotificationURL fd
       = match notificationURL with
         | Some (String _ _ as url) => JString url
         | _ => get tok "threeDSMethodNotificationURL"
         end.
Proof.
  intros H Hd. eexists.
  split; [apply (prepareFingerPrintData_decoded _ _ _ H Hd)|].
  destruct notificationURL as [[|c url]|]; reflexivity.
Qed.

(** *** The error classifier *)

(** For a code that names nothing inherited, with a table of non-empty
    messages holding a non-empty unknown-error entry, the message is the
    table's entry for the code, or else the unknown-error message. *)
Lemma handleErrorCode_own (code unknownMessage : string) :
  inherited code = JUndefined ->
  (forall k m, ERROR_MESSAGES config !! k = Some m -> string_truthy m = true) ->
  ERROR_MESSAGES config !! ERRORS_UNKNOWN config = Some unknownMessage ->
  errorCode (handleErrorCode code) = code
  /\ message (handleErrorCode code)
     = match ERROR_MESSAGES config !! code with
       | Some m => JString m
       | None => JString unknownMessage
       end.
Proof.
  intros Hi Hne Hu. split; [reflexivity|].
  unfold Utils.handleErrorCode, read. cbn [message]. rewrite Hu.
  destruct (ERROR_MESSAGES config !! code) as [m|] eqn:E.
  - cbn [to_boolean]. rewrite (Hne _ _ E). reflexivity.
  - rewrite Hi. reflexivity.
Qed.

(** C6 fails at a code that names a member of [Object.prototype]: the table
    is read without an own-property test, so for [toString] (not a key of
    the table) the message is the inherited function, neither a table entry
    nor the unknown-error message, and not a string. *)
Theorem handleErrorCode_inherited_name :
  ERROR_MESSAGES config !! "toString" = None ->
  handleErrorCode "toString"
  = {| errorCode := "toString"; message := JBuiltin "toString" |}.
Proof.
  intros H. unfold Utils.handleErrorCode, read. rewrite H. reflexivity.
Qed.

End Builders.


Lemma validateChallengeWindowSize_spec_witness :
  dom (CHALLENGE_WINDOW_SIZES Sample.config) = list_to_set size_codes
  /\ In (DEFAULT_CHALLENGE_WINDOW_SIZE Sample.config) size_codes
  /\ validateChallengeWindowSize Sample.config "7" = "02"
  /\ validateChallengeWindowSize Sample.config "04" = "04".
Proof.
  assert (Hdom : dom (CHALLENGE_WINDOW_SIZES Sample.config) = list_to_set size_codes)
    by (vm_compute; reflexivity).
  assert (Hdef : In (DEFAULT_CHALLENGE_WINDOW_SIZE Sample.config) size_codes)
    by (cbn; auto).
  split; [exact Hdom|]. split; [exact Hdef|].
  destruct (validateChallengeWindowSize_spec Sample.config Hdom Hdef) as (Hnot & Hin & _).
  split.
  - apply Hnot. cbn. intuition discriminate.
  - apply Hin. cbn. auto.
Defined.

Lemma decodeAndParseToken_outcomes_witness :
  decodeAndParseToken Base64.Raises "e30=" = Return (JObject [])
  /\ decodeAndParseToken Base64.Raises "e3s=" = Throw (Error "Could not decode token")
  /\ decodeAndParseToken Base64.Raises EmptyString = Return (JString EmptyString)
  /\ decodeAndParseToken (Base64.Yields Base64.FFalse) "****" = Return (JBool false).
Proof.
  split; [|split; [|split]].
  - apply (decodeAndParseToken_outcomes Base64.Raises "e30=") with (text := "{}"); reflexivity.
  - apply (decodeAndParseToken_outcomes Base64.Raises "e3s="). exists "{{". repeat split.
  - apply (decodeAndParseToken_outcomes Base64.Raises EmptyString). reflexivity.
  - apply (decodeAndParseToken_outcomes (Base64.Yields Base64.FFalse) "****"). reflexivity.
Defined.

(** C5 as stated fails: a token that is not base64 does not make
    [decodeAndParseToken] throw "Could not decode token"; whichever way the
    decoder reports it, that report is the outcome. *)
Lemma decodeAndParseToken_not_base64 :
  Base64.decode_text "!!!!" = None
  /\ decodeAndParseToken Base64.Raises "!!!!" = Throw DecoderException
  /\ decodeAndParseToken (Base64.Yields Base64.FFalse) "!!!!" = Return (JBool false)
  /\ decodeAndParseToken (Base64.Yields Base64.FUndefined) "!!!!" = Return JUndefined
  /\ decodeAndParseToken (Base64.Yields Base64.FNull) "!!!!" = Return JNull
  /\ decodeAndParseToken Base64.Raises "!!!!" <> Throw (Error "Could not decode token").
Proof. repeat split; try reflexivity. discriminate. Qed.

Lemma postMessageDomain_precedence_witness :
  decodeAndParseToken Base64.Raises Sample.challengeToken
  = Return (JObject Sample.challengeFields)
  /\ destructurable (JObject Sample.challengeFields) = true
  /\ exists cd fd,
       prepareChallengeData Sample.config Origin.getOrigin Base64.Raises
         Sample.challengeToken "02" (Some "https://override.example:8443/cb") = Return cd
       /\ prepareFingerPrintData Origin.getOrigin Base64.Raises
            Sample.challengeToken (Some "https://override.example:8443/cb") = Return fd
       /\ ChallengeData.postMessageDomain cd = JString "https://override.example:8443"
       /\ FingerPrintData.postMessageDomain fd = JString "https://override.example:8443".
Proof.
  split; [reflexivity|]. split; [reflexivity|].
  destruct (postMessageDomain_precedence Sample.config Origin.getOrigin Base64.Raises
              Sample.challengeToken "02" (Some "https://override.example:8443/cb")
              (JObject Sample.challengeFields) eq_refl eq_refl)
    as (cd & fd & Hc & Hf & Hdc & Hdf).
  exists cd, fd. repeat split; assumption.
Defined.

Lemma prepareChallengeData_fields_witness :
  is_Some (CHALLENGE_WINDOW_SIZES Sample.config !! DEFAULT_CHALLENGE_WINDOW_SIZE Sample.config)
  /\ decodeAndParseToken Base64.Raises Sample.challengeToken
     = Return (JObject Sample.challengeFields)
  /\ exists cd,
       prepareChallengeData Sample.config Origin.getOrigin Base64.Raises
         Sample.challengeToken "9" None = Return cd
       /\ CReqData.messageType (ChallengeData.cReqData cd) = "CReq"
       /\ CReqData.acsTransID (ChallengeData.cReqData cd) = JString "acs-1"
       /\ CReqData.challengeWindowSize (ChallengeData.cReqData cd) = "02"
       /\ ChallengeData.iframeSizeArr cd = Some ("390px", "400px").
Proof.
  assert (Hdef : is_Some (CHALLENGE_WINDOW_SIZES Sample.config
                            !! DEFAULT_CHALLENGE_WINDOW_SIZE Sample.config))
    by (eexists; reflexivity).
  split; [exact Hdef|]. split; [reflexivity|].
  destruct (prepareChallengeData_fields Sample.config Origin.getOrigin Base64.Raises
              Sample.challengeToken "9" None (JObject Sample.challengeFields)
              Hdef eq_refl eq_refl)
    as (cd & Hc & Hm & Ha & _ & _ & Hs & pair & Hl & Hi).
  exists cd. split; [exact Hc|]. split; [exact Hm|]. split; [exact Ha|].
  split; [exact Hs|]. rewrite Hi, <- Hl, Hs. reflexivity.
Defined.

Lemma fingerprint_notificationURL_resolved_witness :
  decodeAndParseToken Base64.Raises Sample.fingerprintToken
  = Return (JObject Sample.fingerprintFields)
  /\ exists fd,
       prepareFingerPrintData Origin.getOrigin Base64.Raises
         Sample.fingerprintToken (Some "https://override.example/cb") = Return fd
       /\ FingerPrintData.threeDSMethodNotificationURL fd
          = JString "https://override.example/cb".
Proof.
  split; [reflexivity|].
  apply (fingerprint_notificationURL_resolved Origin.getOrigin Base64.Raises
           Sample.fingerprintToken (Some "https://override.example/cb")
           (JObject Sample.fingerprintFields)); reflexivity.
Defined.

Lemma handleErrorCode_inherited_name_witness :
  ERROR_MESSAGES Sample.config !! "toString" = None
  /\ handleErrorCode Sample.config "toString"
     = {| errorCode := "toString"; message := JBuiltin "toString" |}.
Proof.
  split; [reflexivity|].
  apply (handleErrorCode_inherited_name Sample.config). reflexivity.
Defined.

(** ** The fingerprint scenario *)

(** C7. For the token that is the base64 of the JSON object with
    [threeDSServerTransID] "abc", [threeDSMethodUrl] "https://acs.example/m"
    and [threeDSMethodNotificationURL] "https://merchant.example/notify",
    and no caller URL, [prepareFingerPrintData] returns
    [threeDSServerTransID] "abc", [threeDSMethodURL] "https://acs.example/m"
    (the token's [threeDSMethodUrl] under its new name) and
    [postMessageDomain] "https://merchant.example". *)
Theorem prepareFingerPrintData_scenario (u : Base64.Undecodable) :
  Sample.fingerprintToken = Base64.encode Sample.fingerprintText
  /\ prepareFingerPrintData Origin.getOrigin u Sample.fingerprintToken None
     = Return {|
         FingerPrintData.threeDSServerTransID := JString "abc";
         FingerPrintData.threeDSMethodURL := JString "https://acs.example/m";
         FingerPrintData.threeDSMethodNotificationURL := JString "https://merchant.example/notify";
         FingerPrintData.postMessageDomain := JString "https://merchant.example"
       |}.
Proof. split; reflexivity. Qed.

(** * Further properties of the code *)

(** ** Objects: assignment and read *)

Lemma own_property_set_eq (fields : list (string * JsValue)) (k : string) (v : JsValue) :
  own_property (set_property fields k v) k = Some v.
Proof.
  induction fields as [|[k' v'] rest IH]; cbn [set_property own_property].
  - rewrite String.eqb_refl. reflexivity.
  - destruct (String.eqb k' k) eqn:E; cbn [own_property]; rewrite E; [reflexivity|exact IH].
Qed.

Lemma own_property_set_ne (fields : list (string * JsValue)) (k k' : string) (v : JsValue) :
  k <> k' -> own_property (set_property fields k v) k' = own_property fields k'.
Proof.
  intros Hne. induction fields as [|[k0 v0] rest IH]; cbn [set_property own_property].
  - apply String.eqb_neq in Hne. rewrite Hne. reflexivity.
  - destruct (String.eqb k0 k) eqn:E; cbn [own_property].
    + apply String.eqb_eq in E. subst k0. apply String.eqb_neq in Hne. rewrite Hne. reflexivity.
    + rewrite IH. reflexivity.
Qed.

(** ** More on the result encoder *)

Section EncodeResultMore.

Import JSON.

(** The text that [encodeResult] encodes for a field, decoded and parsed:
    the empty object when the field is absent. *)
Lemma decode_parse_field (k : string) (field : option string) :
  exists text,
    Base64.decode_text (Base64.encode (text_of (stringify (JObject [(k, of_option field)]))))
    = Some text
    /\ string_truthy text = true
    /\ parse text = Some (JObject match field with
                                  | Some v => [(k, JString v)]
                                  | None => []
                                  end).
Proof.
  destruct field as [v|]; cbn [of_option].
  - rewrite JSONFacts.stringify_single. cbn [text_of].
    eexists. split; [apply Base64Facts.decode_encode|].
    split; [reflexivity|apply JSONFacts.parse_stringify_single].
  - rewrite JSONFacts.stringify_single_undefined. cbn [text_of].
    eexists. split; [apply Base64Facts.decode_encode|]. split; reflexivity.
Qed.

Lemma encodeResult_return_inv (r : ResultObject) (type out : string) :
  encodeResult r type = Return out ->
  truthy (threeDSCompInd r) || truthy (transStatus r) = true
  /\ (type = "IdentifyShopper" \/ type = "ChallengeShopper").
Proof.
  unfold encodeResult.
  destruct (truthy (threeDSCompInd r)), (truthy (transStatus r)); cbn [negb andb orb];
    try discriminate;
    (destruct (String.eqb_spec type "IdentifyShopper") as [->|H1]; [auto|]);
    (destruct (String.eqb_spec type "ChallengeShopper") as [->|H2]; [auto|]);
    discriminate.
Qed.

(** X1. [encodeResult] returns exactly when one of the two fields is truthy
    and the flow type is IdentifyShopper or ChallengeShopper; it throws the
    guard's error exactly when neither field is truthy, whatever the flow
    type, and the "No data available" error exactly when a field is truthy
    and the flow type is neither of the two. *)
Theorem encodeResult_outcome_cases (r : ResultObject) (type : string) :
  ((exists out, encodeResult r type = Return out)
   <-> truthy (threeDSCompInd r) || truthy (transStatus r) = true
       /\ (type = "IdentifyShopper" \/ type = "ChallengeShopper"))
  /\ (encodeResult r type = Throw (Error "No threeDS2 request details found")
      <-> truthy (threeDSCompInd r) || truthy (transStatus r) = false)
  /\ (encodeResult r type = Throw (Error "No data available to create a result")
      <-> truthy (threeDSCompInd r) || truthy (transStatus r) = true
          /\ type <> "IdentifyShopper" /\ type <> "ChallengeShopper").
Proof.
  unfold encodeResult.
  destruct (truthy (threeDSCompInd r)), (truthy (transStatus r)); cbn [negb andb orb];
    destruct (String.eqb_spec type "IdentifyShopper") as [->|H1];
    try (destruct (String.eqb_spec type "ChallengeShopper") as [->|H2]);
    cbn [String.eqb Ascii.eqb Bool.eqb];
    (split; [|split]); split;
    try solve [ intros [out H]; discriminate H
              | intros [_ [H|H]]; congruence
              | intros [H _]; discriminate H
              | intros [_ [H _]]; congruence
              | intros [_ [_ H]]; congruence
              | intros H; discriminate H
              | intros _; eauto
              | intros _; repeat split; auto; discriminate
              | intros; reflexivity ].
Qed.

Lemma encodeResult_identify_decoded (r : ResultObject) (out : string) :
  encodeResult r "IdentifyShopper" = Return out ->
  exists text,
    Base64.decode_text out = Some text /\ string_truthy text = true
    /\ parse text = Some (JObject match threeDSCompInd r with
                                  | Some v => [("threeDSCompInd", JString v)]
                                  | None => []
                                  end).
Proof.
  intros H.
  assert (Ht : truthy (threeDSCompInd r) || truthy (transStatus r) = true).
  { apply (encodeResult_return_inv r "IdentifyShopper" out H). }
  rewrite (encodeResult_identify r Ht) in H. injection H as <-.
  apply decode_parse_field.
Qed.

Lemma encodeResult_challenge_decoded (r : ResultObject) (out : string) :
  encodeResult r "ChallengeShopper" = Return out ->
  exists text,
    Base64.decode_text out = Some text /\ string_truthy text = true
    /\ parse text = Some (JObject match transStatus r with
                                  | Some v => [("transStatus", JString v)]
                                  | None => []
                                  end).
Proof.
  intros H.
  assert (Ht : truthy (threeDSCompInd r) || truthy (transStatus r) = true).
  { apply (encodeResult_return_inv r "ChallengeShopper" out H). }
  rewrite (encodeResult_challenge r Ht) in H. injection H as <-.
  apply decode_parse_field.
Qed.

Lemma encodeResult_outcome_cases_witness :
  exists out,
    encodeResult {| threeDSCompInd := Some "Y"; transStatus := None |} "IdentifyShopper"
    = Return out.
Proof.
  apply (encodeResult_outcome_cases
           {| threeDSCompInd := Some "Y"; transStatus := None |} "IdentifyShopper").
  split; [reflexivity|left; reflexivity].
Defined.

(** X2. When only the field that the flow type does not select is truthy,
    [encodeResult] does not throw: with the selected field absent it returns
    the encoding of the empty object, and with the selected field the empty
    string it returns the encoding of that field holding the empty string. *)
Theorem encodeResult_unselected_only (r : ResultObject) :
  (truthy (transStatus r) = true ->
   (threeDSCompInd r = None -> encodeResult r "IdentifyShopper" = Return "e30=")
   /\ (threeDSCompInd r = Some EmptyString ->
       exists out text,
         encodeResult r "IdentifyShopper" = Return out
         /\ Base64.decode_text out = Some text
         /\ parse text = Some (JObject [("threeDSCompInd", JString EmptyString)])))
  /\ (truthy (threeDSCompInd r) = true ->
      (transStatus r = None -> encodeResult r "ChallengeShopper" = Return "e30=")
      /\ (transStatus r = Some EmptyString ->
          exists out text,
            encodeResult r "ChallengeShopper" = Return out
            /\ Base64.decode_text out = Some text
            /\ parse text = Some (JObject [("transStatus", JString EmptyString)])))
  /\ Base64.decode_text "e30=" = Some "{}" /\ parse "{}" = Some (JObject []).
Proof.
  split; [|split; [|split; reflexivity]].
  - intros Ht.
    assert (H : truthy (threeDSCompInd r) || truthy (transStatus r) = true)
      by (rewrite Ht; apply orb_true_r).
    split; intros Hc; rewrite (encodeResult_identify r H), Hc.
    + reflexivity.
    + destruct (decode_parse_field "threeDSCompInd" (Some EmptyString))
        as (text & Hd & _ & Hp). eauto.
  - intros Ht.
    assert (H : truthy (threeDSCompInd r) || truthy (transStatus r) = true)
      by (rewrite Ht; reflexivity).
    split; intros Hc; rewrite (encodeResult_challenge r H), Hc.
    + reflexivity.
    + destruct (decode_parse_field "transStatus" (Some EmptyString))
        as (text & Hd & _ & Hp). eauto.
Qed.

Lemma encodeResult_unselected_only_witness :
  truthy (Some "Y") = true
  /\ encodeResult {| threeDSCompInd := None; transStatus := Some "Y" |} "IdentifyShopper"
     = Return "e30=".
Proof.
  split; [reflexivity|].
  apply (encodeResult_unselected_only {| threeDSCompInd := None; transStatus := Some "Y" |});
    reflexivity.
Defined.

(** X3. Under one flow type, two results with the same output have the same
    selected field (absent, or the same string): the encoding loses nothing
    of what it selects. *)
Theorem encodeResult_injective (r1 r2 : ResultObject) (out : string) :
  (encodeResult r1 "IdentifyShopper" = Return out ->
   encodeResult r2 "IdentifyShopper" = Return out ->
   threeDSCompInd r1 = threeDSCompInd r2)
  /\ (encodeResult r1 "ChallengeShopper" = Return out ->
      encodeResult r2 "ChallengeShopper" = Return out ->
      transStatus r1 = transStatus r2).
Proof.
  split; intros H1 H2.
  - destruct (encodeResult_identify_decoded _ _ H1) as (t1 & Hd1 & _ & Hp1).
    destruct (encodeResult_identify_decoded _ _ H2) as (t2 & Hd2 & _ & Hp2).
    rewrite Hd1 in Hd2. injection Hd2 as <-. rewrite Hp1 in Hp2.
    destruct (threeDSCompInd r1), (threeDSCompInd r2); congruence.
  - destruct (encodeResult_challenge_decoded _ _ H1) as (t1 & Hd1 & _ & Hp1).
    destruct (encodeResult_challenge_decoded _ _ H2) as (t2 & Hd2 & _ & Hp2).
    rewrite Hd1 in Hd2. injection Hd2 as <-. rewrite Hp1 in Hp2.
    destruct (transStatus r1), (transStatus r2); congruence.
Qed.

Lemma encodeResult_injective_witness :
  encodeResult {| threeDSCompInd := Some "N"; transStatus := Some "Y" |} "ChallengeShopper"
  = Return "eyJ0cmFuc1N0YXR1cyI6IlkifQ=="
  /\ encodeResult {| threeDSCompInd := None; transStatus := Some "Y" |} "ChallengeShopper"
     = Return "eyJ0cmFuc1N0YXR1cyI6IlkifQ=="
  /\ transStatus {| threeDSCompInd := Some "N"; transStatus := Some "Y" |}
     = transStatus {| threeDSCompInd := None; transStatus := Some "Y" |}.
Proof.
  split; [reflexivity|]. split; [reflexivity|].
  apply (encodeResult_injective _ _ "eyJ0cmFuc1N0YXR1cyI6IlkifQ=="); reflexivity.
Defined.

(** X4. What [encodeResult] returns, placed by [createResolveData] under
    [dataKey], is read back from [details] under that key (whatever the key,
    the name of an inherited member included), and [decodeAndParseToken]
    turns it back into the object of the selected field, however the
    decoder reports a string that is not base64. *)
Theorem encodeResult_resolve_decode (u : Base64.Undecodable) (r : ResultObject)
        (type dataKey paymentData out : string) (authenticateOnly : bool) :
  encodeResult r type = Return out ->
  get (JObject (details (data (createResolveData dataKey out paymentData authenticateOnly))))
      dataKey = JString out
  /\ exists selected,
       (type = "IdentifyShopper" /\ selected = ("threeDSCompInd", threeDSCompInd r)
        \/ type = "ChallengeShopper" /\ selected = ("transStatus", transStatus r))
       /\ decodeAndParseToken u out
          = Return (JObject match snd selected with
                            | Some v => [(fst selected, JString v)]
                            | None => []
                            end).
Proof.
  intros H. split.
  - cbn [createResolveData data details get own_property]. rewrite String.eqb_refl. reflexivity.
  - assert (Hc : type = "IdentifyShopper" \/ type = "ChallengeShopper").
    { apply (encodeResult_return_inv r type out H). }
    destruct Hc as [-> | ->].
    + exists ("threeDSCompInd", threeDSCompInd r). split; [auto|].
      destruct (encodeResult_identify_decoded _ _ H) as (text & Hd & Ht & Hp).
      unfold decodeAndParseToken, Base64.decode. rewrite Hd. cbn [bind]. rewrite Ht, Hp.
      reflexivity.
    + exists ("transStatus", transStatus r). split; [auto|].
      destruct (encodeResult_challenge_decoded _ _ H) as (text & Hd & Ht & Hp).
      unfold decodeAndParseToken, Base64.decode. rewrite Hd. cbn [bind]. rewrite Ht, Hp.
      reflexivity.
Qed.

Lemma encodeResult_resolve_decode_witness :
  encodeResult {| threeDSCompInd := None; transStatus := Some "Y" |} "ChallengeShopper"
  = Return "eyJ0cmFuc1N0YXR1cyI6IlkifQ=="
  /\ get (JObject (details (data (createResolveData "threeds2.challengeResult"
                                    "eyJ0cmFuc1N0YXR1cyI6IlkifQ==" "payment-data" false))))
         "threeds2.challengeResult"
     = JString "eyJ0cmFuc1N0YXR1cyI6IlkifQ==".
Proof.
  split; [reflexivity|].
  apply (encodeResult_resolve_decode Base64.Raises
           {| threeDSCompInd := None; transStatus := Some "Y" |} "ChallengeShopper").
  reflexivity.
Defined.

End EncodeResultMore.

(** ** More on the builders, the window size and the error classifier *)

Section BuildersMore.

Variable config : Config.
Variable getOrigin : JsValue -> JsValue.
Variable undecodable : Base64.Undecodable.

Local Abbreviation decodeAndParseToken := (decodeAndParseToken undecodable).
Local Abbreviation validateChallengeWindowSize := (validateChallengeWindowSize config).
Local Abbreviation getChallengeWindowSize := (getChallengeWindowSize config).
Local Abbreviation prepareChallengeData := (prepareChallengeData config getOrigin undecodable).
Local Abbreviation prepareFingerPrintData := (prepareFingerPrintData getOrigin undecodable).
Local Abbreviation handleErrorCode := (handleErrorCode config).


Lemma get_missing (tok : JsValue) (k : string) :
  own tok k = None -> inherited k = JUndefined -> get tok k = JUndefined.
Proof.
  intros Ho Hi. destruct tok; cbn [get own] in *; try exact Hi.
  rewrite Ho. exact Hi.
Qed.

(** X6. The builders do not validate the decoded token.  When it can be
    destructured they return, and a field whose key the token does not hold
    as an own property (any field, for a token that is a string, a number, a
    boolean or an array) is [undefined]; the fingerprint's [threeDSMethodURL]
    is read under the key [threeDSMethodUrl] only; and without an override,
    a token without notification URL gives the origin of [undefined]. *)
Theorem builders_missing_fields (token size : string) (notificationURL : option string)
        (tok : JsValue) :
  decodeAndParseToken token = Return tok -> destructurable tok = true ->
  exists cd fd,
    prepareChallengeData token size notificationURL = Return cd
    /\ prepareFingerPrintData token notificationURL = Return fd
    /\ (own tok "acsURL" = None -> ChallengeData.acsURL cd = JUndefined)
    /\ (own tok "acsTransID" = None ->
        CReqData.acsTransID (ChallengeData.cReqData cd) = JUndefined)
    /\ (own tok "messageVersion" = None ->
        CReqData.messageVersion (ChallengeData.cReqData cd) = JUndefined)
    /\ (own tok "threeDSServerTransID" = None ->
        CReqData.threeDSServerTransID (ChallengeData.cReqData cd) = JUndefined
        /\ FingerPrintData.threeDSServerTransID fd = JUndefined)
    /\ (own tok "threeDSMethodUrl" = None -> FingerPrintData.threeDSMethodURL fd = JUndefined)
    /\ (own tok "threeDSNotificationURL" = None -> truthy notificationURL = false ->
        ChallengeData.postMessageDomain cd = getOrigin JUndefined)
    /\ (own tok "threeDSMethodNotificationURL" = None -> truthy notificationURL = false ->
        FingerPrintData.threeDSMethodNotificationURL fd = JUndefined
        /\ FingerPrintData.postMessageDomain fd = getOrigin JUndefined).
Proof.
  intros H Hd. do 2 eexists.
  split; [apply (prepareChallengeData_decoded _ _ _ _ _ _ _ H Hd)|].
  split; [apply (prepareFingerPrintData_decoded _ _ _ _ _ H Hd)|].
  cbn [ChallengeData.acsURL ChallengeData.cReqData ChallengeData.postMessageDomain
       CReqData.acsTransID CReqData.messageVersion CReqData.threeDSServerTransID
       FingerPrintData.threeDSServerTransID FingerPrintData.threeDSMethodURL
       FingerPrintData.threeDSMethodNotificationURL FingerPrintData.postMessageDomain].
  repeat match goal with |- _ /\ _ => split end;
    intros Ho; try (intros Hn; rewrite Hn);
    rewrite (get_missing _ _ Ho) by reflexivity;
    try split; reflexivity.
Qed.

(** X7. With the default code a key of the size table, the validated size
    is always a key of the table, so [getChallengeWindowSize] is never
    [undefined]; one character and the same character after [0] validate
    alike; and when no key of the table is one character long, validating
    twice is validating once. *)
Theorem validateChallengeWindowSize_valid (sizeStr : string) :
  is_Some (CHALLENGE_WINDOW_SIZES config !! DEFAULT_CHALLENGE_WINDOW_SIZE config) ->
  is_Some (CHALLENGE_WINDOW_SIZES config !! validateChallengeWindowSize sizeStr)
  /\ is_Some (getChallengeWindowSize sizeStr)
  /\ (forall c : ascii,
        validateChallengeWindowSize (String c EmptyString)
        = validateChallengeWindowSize (String "0" (String c EmptyString)))
  /\ ((forall k, is_Some (CHALLENGE_WINDOW_SIZES config !! k) -> String.length k <> 1) ->
      validateChallengeWindowSize (validateChallengeWindowSize sizeStr)
      = validateChallengeWindowSize sizeStr).
Proof.
  intros Hdef.
  assert (Hvalid : is_Some (CHALLENGE_WINDOW_SIZES config !! validateChallengeWindowSize sizeStr)).
  { apply (getChallengeWindowSize_valid config sizeStr Hdef). }
  split; [exact Hvalid|]. split; [exact Hvalid|]. split; [reflexivity|].
  intros Hlen. specialize (Hlen _ Hvalid).
  set (v := validateChallengeWindowSize sizeStr) in *.
  unfold Utils.validateChallengeWindowSize at 1.
  destruct (Nat.eqb_spec (String.length v) 1) as [E|_]; [contradiction|].
  unfold hasOwnProperty. destruct Hvalid as [pair ->]. reflexivity.
Qed.

(** X8. For a code that names no inherited member, [handleErrorCode] keeps
    the code and gives: the table's entry when it is not empty; otherwise
    (no entry, or an empty one) the entry of [ERRORS.UNKNOWN], and
    [undefined] when the table has no such entry. *)
Theorem handleErrorCode_fallbacks (code : string) :
  inherited code = JUndefined ->
  errorCode (handleErrorCode code) = code
  /\ (forall m, ERROR_MESSAGES config !! code = Some m -> string_truthy m = true ->
      message (handleErrorCode code) = JString m)
  /\ (ERROR_MESSAGES config !! code = None \/ ERROR_MESSAGES config !! code = Some EmptyString ->
      (forall u, ERROR_MESSAGES config !! ERRORS_UNKNOWN config = Some u ->
         message (handleErrorCode code) = JString u)
      /\ (ERROR_MESSAGES config !! ERRORS_UNKNOWN config = None ->
          inherited (ERRORS_UNKNOWN config) = JUndefined ->
          message (handleErrorCode code) = JUndefined)).
Proof.
  intros Hi. split; [reflexivity|].
  unfold Utils.handleErrorCode, read. cbn [message]. split.
  - intros m E Hm. rewrite E. cbn [to_boolean]. rewrite Hm. reflexivity.
  - intros [E|E]; rewrite E; [rewrite Hi|]; cbn [to_boolean string_truthy]; split.
    + intros u ->. reflexivity.
    + intros -> ->. reflexivity.
    + intros u ->. reflexivity.
    + intros -> ->. reflexivity.
Qed.

End BuildersMore.


Lemma builders_missing_fields_witness :
  decodeAndParseToken (Base64.Yields Base64.FFalse) "e30=" = Return (JObject [])
  /\ exists cd fd,
       prepareChallengeData Sample.config Origin.getOrigin (Base64.Yields Base64.FFalse)
         "e30=" "03" None = Return cd
       /\ prepareFingerPrintData Origin.getOrigin (Base64.Yields Base64.FFalse) "e30=" None
          = Return fd
       /\ ChallengeData.acsURL cd = JUndefined
       /\ ChallengeData.postMessageDomain cd = JNull
       /\ FingerPrintData.threeDSMethodURL fd = JUndefined.
Proof.
  split; [reflexivity|].
  destruct (builders_missing_fields Sample.config Origin.getOrigin (Base64.Yields Base64.FFalse)
              "e30=" "03" None (JObject []) eq_refl eq_refl)
    as (cd & fd & Hc & Hf & Ha & _ & _ & _ & Hm & Hp & _).
  exists cd, fd. split; [exact Hc|]. split; [exact Hf|].
  split; [apply Ha; reflexivity|]. split; [apply Hp; reflexivity|apply Hm; reflexivity].
Defined.

Lemma sample_size_keys (k : string) :
  is_Some (CHALLENGE_WINDOW_SIZES Sample.config !! k) -> String.length k <> 1.
Proof.
  intros Hk.
  assert (Hdom : dom (CHALLENGE_WINDOW_SIZES Sample.config) = list_to_set size_codes)
    by (vm_compute; reflexivity).
  apply elem_of_dom in Hk. rewrite Hdom in Hk.
  apply (elem_of_list_to_set (C := gset string)) in Hk. apply list_elem_of_In in Hk.
  cbn in Hk. destruct Hk as [<-|[<-|[<-|[<-|[<-|[]]]]]]; discriminate.
Defined.

Lemma validateChallengeWindowSize_valid_witness :
  is_Some (CHALLENGE_WINDOW_SIZES Sample.config !! DEFAULT_CHALLENGE_WINDOW_SIZE Sample.config)
  /\ validateChallengeWindowSize Sample.config (validateChallengeWindowSize Sample.config "7")
     = validateChallengeWindowSize Sample.config "7".
Proof.
  assert (Hdef : is_Some (CHALLENGE_WINDOW_SIZES Sample.config
                            !! DEFAULT_CHALLENGE_WINDOW_SIZE Sample.config))
    by (eexists; reflexivity).
  split; [exact Hdef|].
  apply (validateChallengeWindowSize_valid Sample.config "7" Hdef). exact sample_size_keys.
Defined.

Lemma handleErrorCode_fallbacks_witness :
  inherited "timeout" = JUndefined
  /\ message (handleErrorCode Sample.config "timeout") = JString "ThreeDS2 timed out"
  /\ message (handleErrorCode Sample.config "no-such-code")
     = JString "An unknown error occurred".
Proof.
  split; [reflexivity|]. split.
  - destruct (handleErrorCode_fallbacks Sample.config "timeout" eq_refl) as (_ & H & _).
    apply H; reflexivity.
  - destruct (handleErrorCode_fallbacks Sample.config "no-such-code" eq_refl) as (_ & _ & H).
    destruct (H (or_introl eq_refl)) as [Hu _]. apply Hu. reflexivity.
Defined.

(** ** URL-safe base64 *)

Module Base64URLFacts.
Import Base64.

Lemma sextet_url_char (x : sextet) :
  Ascii.eqb (sextet_char x) "=" = false
  /\ one_of url_alphabet (url_char (sextet_char x)) = true
  /\ replace_all "_" "/" (replace_all "-" "+" (String (url_char (sextet_char x)) EmptyString))
     = String (sextet_char x) EmptyString.
Proof.
  destruct x as [[[[[b5 b4] b3] b2] b1] b0].
  destruct b5, b4, b3, b2, b1, b0; repeat split; reflexivity.
Qed.

Lemma encode_three_sextets (a b c : ascii) :
  exists x1 x2 x3 x4,
    encode_three a b c
    = String (sextet_char x1) (String (sextet_char x2)
        (String (sextet_char x3) (String (sextet_char x4) EmptyString))).
Proof.
  destruct a as [a0 a1 a2 a3 a4 a5 a6 a7], b as [b0 b1 b2 b3 b4 b5 b6 b7],
           c as [c0 c1 c2 c3 c4 c5 c6 c7].
  do 4 eexists. reflexivity.
Qed.

Lemma encode_two_sextets (a b : ascii) :
  exists x1 x2 x3,
    encode_two a b
    = String (sextet_char x1) (String (sextet_char x2)
        (String (sextet_char x3) (String pad EmptyString))).
Proof.
  destruct a as [a0 a1 a2 a3 a4 a5 a6 a7], b as [b0 b1 b2 b3 b4 b5 b6 b7].
  do 3 eexists. reflexivity.
Qed.

Lemma encode_one_sextets (a : ascii) :
  exists x1 x2,
    encode_one a
    = String (sextet_char x1) (String (sextet_char x2) (String pad (String pad EmptyString))).
Proof.
  destruct a as [a0 a1 a2 a3 a4 a5 a6 a7]. do 2 eexists. reflexivity.
Qed.

Lemma url_safe_sextet (x : sextet) (rest : string) :
  url_safe (String (sextet_char x) rest) = String (url_char (sextet_char x)) (url_safe rest).
Proof.
  unfold url_safe. cbn [before_first].
  destruct (sextet_url_char x) as (-> & _ & _). reflexivity.
Qed.

Lemma url_safe_pad (rest : string) : url_safe (String pad rest) = EmptyString.
Proof. reflexivity. Qed.

Lemma encodeBase64URL_url_safe_encode (s : string) : encodeBase64URL s = url_safe (encode s).
Proof. reflexivity. Qed.

(** The shape of the output, by groups of three bytes. *)
Lemma encodeBase64URL_shape (s : string) :
  match s with
  | EmptyString => encodeBase64URL s = EmptyString /\ encode s = EmptyString
  | String a EmptyString =>
      exists x1 x2,
        encodeBase64URL s
        = String (url_char (sextet_char x1)) (String (url_char (sextet_char x2)) EmptyString)
        /\ encode s
           = String (sextet_char x1) (String (sextet_char x2) (String pad (String pad EmptyString)))
  | String a (String b EmptyString) =>
      exists x1 x2 x3,
        encodeBase64URL s
        = String (url_char (sextet_char x1)) (String (url_char (sextet_char x2))
            (String (url_char (sextet_char x3)) EmptyString))
        /\ encode s
           = String (sextet_char x1) (String (sextet_char x2)
               (String (sextet_char x3) (String pad EmptyString)))
  | String a (String b (String c rest)) =>
      exists x1 x2 x3 x4,
        encodeBase64URL s
        = String (url_char (sextet_char x1)) (String (url_char (sextet_char x2))
            (String (url_char (sextet_char x3)) (String (url_char (sextet_char x4))
               (encodeBase64URL rest))))
        /\ encode s
           = String (sextet_char x1) (String (sextet_char x2)
               (String (sextet_char x3) (String (sextet_char x4) (encode rest))))
  end.
Proof.
  destruct s as [|a [|b [|c rest]]].
  - split; reflexivity.
  - destruct (encode_one_sextets a) as (x1 & x2 & He). exists x1, x2.
    rewrite encodeBase64URL_url_safe_encode. cbn [encode]. rewrite He.
    rewrite !url_safe_sextet, url_safe_pad. split; reflexivity.
  - destruct (encode_two_sextets a b) as (x1 & x2 & x3 & He). exists x1, x2, x3.
    rewrite encodeBase64URL_url_safe_encode. cbn [encode]. rewrite He.
    rewrite !url_safe_sextet, url_safe_pad. split; reflexivity.
  - destruct (encode_three_sextets a b c) as (x1 & x2 & x3 & x4 & He). exists x1, x2, x3, x4.
    rewrite !encodeBase64URL_url_safe_encode. cbn [encode]. rewrite He.
    rewrite !append_cons, append_nil_l, !url_safe_sextet. split; reflexivity.
Qed.

Lemma restore_cons4 (c1 c2 c3 c4 : ascii) (rest : string) :
  restore_base64 (String c1 (String c2 (String c3 (String c4 rest))))
  = replace_all "_" "/" (replace_all "-" "+" (String c1 EmptyString))
    ++ replace_all "_" "/" (replace_all "-" "+" (String c2 EmptyString))
    ++ replace_all "_" "/" (replace_all "-" "+" (String c3 EmptyString))
    ++ replace_all "_" "/" (replace_all "-" "+" (String c4 EmptyString))
    ++ restore_base64 rest.
Proof.
  unfold restore_base64. cbn [replace_all String.length].
  rewrite !append_cons, !append_nil_l.
  replace (S (S (S (S (String.length rest)))) mod 4) with (String.length rest mod 4).
  - reflexivity.
  - symmetry. replace (S (S (S (S (String.length rest))))) with (String.length rest + 1 * 4) by lia.
    apply Nat.Div0.mod_add.
Qed.

(** Undoing the replacements and restoring the padding gives the standard
    base64 text back. *)
Lemma restore_encodeBase64URL (s : string) : restore_base64 (encodeBase64URL s) = encode s.
Proof.
  induction s as [|a|a b|a b c rest IH] using Base64Facts.string_triples_ind.
  - reflexivity.
  - destruct (encodeBase64URL_shape (String a EmptyString)) as (x1 & x2 & -> & ->).
    destruct (sextet_url_char x1) as (_ & _ & H1), (sextet_url_char x2) as (_ & _ & H2).
    unfold restore_base64. cbn [replace_all String.length Nat.modulo Nat.divmod fst snd Nat.sub].
    cbn [replace_all] in H1, H2. injection H1 as ->. injection H2 as ->. reflexivity.
  - destruct (encodeBase64URL_shape (String a (String b EmptyString)))
      as (x1 & x2 & x3 & -> & ->).
    destruct (sextet_url_char x1) as (_ & _ & H1), (sextet_url_char x2) as (_ & _ & H2),
             (sextet_url_char x3) as (_ & _ & H3).
    unfold restore_base64. cbn [replace_all String.length Nat.modulo Nat.divmod fst snd Nat.sub].
    cbn [replace_all] in H1, H2, H3. injection H1 as ->. injection H2 as ->. injection H3 as ->.
    reflexivity.
  - destruct (encodeBase64URL_shape (String a (String b (String c rest))))
      as (x1 & x2 & x3 & x4 & -> & ->).
    rewrite restore_cons4, IH.
    destruct (sextet_url_char x1) as (_ & _ & ->), (sextet_url_char x2) as (_ & _ & ->),
             (sextet_url_char x3) as (_ & _ & ->), (sextet_url_char x4) as (_ & _ & ->).
    reflexivity.
Qed.

End Base64URLFacts.

(** X9. The output of [encodeBase64URL] is made of letters, digits, [-] and
    [_] only: it holds no [=], no [+] and no [/]. *)
Theorem encodeBase64URL_url_safe (dataStr : string) :
  all_chars (one_of url_alphabet) (encodeBase64URL dataStr) = true.
Proof.
  induction dataStr as [|a|a b|a b c rest IH] using Base64Facts.string_triples_ind.
  - reflexivity.
  - destruct (Base64URLFacts.encodeBase64URL_shape (String a EmptyString)) as (x1 & x2 & -> & _).
    cbn [all_chars].
    destruct (Base64URLFacts.sextet_url_char x1) as (_ & -> & _),
             (Base64URLFacts.sextet_url_char x2) as (_ & -> & _). reflexivity.
  - destruct (Base64URLFacts.encodeBase64URL_shape (String a (String b EmptyString)))
      as (x1 & x2 & x3 & -> & _).
    cbn [all_chars].
    destruct (Base64URLFacts.sextet_url_char x1) as (_ & -> & _),
             (Base64URLFacts.sextet_url_char x2) as (_ & -> & _),
             (Base64URLFacts.sextet_url_char x3) as (_ & -> & _). reflexivity.
  - destruct (Base64URLFacts.encodeBase64URL_shape (String a (String b (String c rest))))
      as (x1 & x2 & x3 & x4 & -> & _).
    cbn [all_chars]. rewrite IH.
    destruct (Base64URLFacts.sextet_url_char x1) as (_ & -> & _),
             (Base64URLFacts.sextet_url_char x2) as (_ & -> & _),
             (Base64URLFacts.sextet_url_char x3) as (_ & -> & _),
             (Base64URLFacts.sextet_url_char x4) as (_ & -> & _). reflexivity.
Qed.

(** X10. Nothing is lost by [encodeBase64URL]: with [-] and [_] turned back
    into [+] and [/] and the padding restored from the length, its output is
    the standard base64 of the input and decodes to the input. *)
Theorem encodeBase64URL_decodes (dataStr : string) :
  restore_base64 (encodeBase64URL dataStr) = btoa dataStr
  /\ Base64.decode_text (restore_base64 (encodeBase64URL dataStr)) = Some dataStr.
Proof.
  rewrite Base64URLFacts.restore_encodeBase64URL. split; [reflexivity|].
  apply Base64Facts.decode_encode.
Qed.

(** X11. [encodeBase64URL] is injective: two inputs with the same output are
    the same. *)
Theorem encodeBase64URL_injective (s t : string) :
  encodeBase64URL s = encodeBase64URL t -> s = t.
Proof.
  intros H.
  assert (E : Some s = Some t); [|congruence].
  rewrite <- (Base64Facts.decode_encode s), <- (Base64Facts.decode_encode t).
  rewrite <- !Base64URLFacts.restore_encodeBase64URL, H. reflexivity.
Qed.

Lemma encodeBase64URL_injective_witness :
  encodeBase64URL "a?" = encodeBase64URL (String "a" (String "?" EmptyString))
  /\ "a?" = String "a" (String "?" EmptyString).
Proof.
  split; [reflexivity|].
  apply (encodeBase64URL_injective "a?" (String "a" (String "?" EmptyString))). reflexivity.
Defined.

Example encodeBase64URL_samples :
  encodeBase64URL "a?" = "YT8" /\ btoa "a?" = "YT8="
  /\ encodeBase64URL (String (ascii_of_nat 251) (String (ascii_of_nat 255) EmptyString)) = "-_8"
  /\ encodeBase64URL EmptyString = EmptyString.
Proof. repeat split; reflexivity. Qed.

(** ** The props of the 3DS2 component *)

Section Get3DS2Props.

Variable pick : list string -> list (string * JsValue) -> list (string * JsValue).

(** X12. [get3DS2Props] always returns an object.  Its [statusType] is
    "loading" for the subtype "fingerprint" and "custom" for every other
    subtype; [showSpinner] is set for "fingerprint" only, to the negation of
    [props.isDropin]; every other property is as [pick] gave it, picked
    from the fingerprint keys for "fingerprint" and from the challenge keys
    otherwise. *)
Theorem get3DS2Props_result (actionSubtype : string) (props : list (string * JsValue)) :
  exists rtnObj,
    get3DS2Props pick actionSubtype props = Some rtnObj
    /\ own_property rtnObj "statusType"
       = Some (JString (if String.eqb actionSubtype "fingerprint" then "loading" else "custom"))
    /\ (actionSubtype = "fingerprint" ->
        own_property rtnObj "showSpinner"
        = Some (JBool (negb (to_boolean (get (JObject props) "isDropin")))))
    /\ (actionSubtype <> "fingerprint" ->
        own_property rtnObj "showSpinner"
        = own_property (pick challengeProps props) "showSpinner")
    /\ (forall k, k <> "statusType" -> k <> "showSpinner" ->
        own_property rtnObj k
        = own_property (pick (if String.eqb actionSubtype "fingerprint"
                              then fingerprintProps else challengeProps) props) k).
Proof.
  unfold get3DS2Props.
  destruct (String.eqb_spec actionSubtype "fingerprint") as [->|Hne]; cbn [negb];
    eexists; (split; [reflexivity|]); (split; [apply own_property_set_eq|]).
  - split; [|split].
    + intros _. rewrite own_property_set_ne by discriminate. apply own_property_set_eq.
    + intros H. contradiction.
    + intros k H1 H2. rewrite !own_property_set_ne by congruence. reflexivity.
  - split; [|split].
    + intros H. contradiction.
    + intros _. apply own_property_set_ne. discriminate.
    + intros k H1 H2. apply own_property_set_ne. congruence.
Qed.

End Get3DS2Props.

Lemma get3DS2Props_result_witness :
  exists rtnObj,
    get3DS2Props sample_pick "challenge"
      [("challengeWindowSize", JString "05"); ("isDropin", JBool true)] = Some rtnObj
    /\ own_property rtnObj "statusType" = Some (JString "custom")
    /\ own_property rtnObj "showSpinner" = None
    /\ own_property rtnObj "challengeWindowSize" = Some (JString "05").
Proof.
  destruct (get3DS2Props_result sample_pick "challenge"
              [("challengeWindowSize", JString "05"); ("isDropin", JBool true)])
    as (rtnObj & H & Hs & _ & Hn & Hk).
  exists rtnObj. split; [exact H|]. split; [exact Hs|]. split.
  - rewrite Hn by discriminate. reflexivity.
  - rewrite Hk by discriminate. reflexivity.
Defined.

(** ** The screen-reader panel *)

(** X13. A disabled panel forwards nothing and cannot throw, whether or not
    its component reference is set; an enabled panel without the reference
    throws a TypeError whatever the messages; an enabled panel with it
    forwards [null] exactly for no messages or the empty string, a
    one-element array for a non-empty string, and an array as it is (the
    empty array included). *)
Theorem setMessages_forwarded (enabled hasRef : bool) (messages : SRPanel.Messages) :
  (enabled = false -> SRPanel.setMessages enabled hasRef messages = Return None)
  /\ (enabled = true -> hasRef = false ->
      SRPanel.setMessages enabled hasRef messages = Throw TypeError)
  /\ (enabled = true -> hasRef = true ->
      exists panelMessages,
        SRPanel.setMessages enabled hasRef messages = Return (Some panelMessages)
        /\ (panelMessages = None
            <-> messages = SRPanel.NoMessages \/ messages = SRPanel.OneMessage EmptyString)
        /\ (forall m, messages = SRPanel.OneMessage m -> m <> EmptyString ->
            panelMessages = Some [m])
        /\ (forall l, messages = SRPanel.ManyMessages l -> panelMessages = Some l)).
Proof.
  split; [|split].
  - intros ->. reflexivity.
  - intros -> ->. reflexivity.
  - intros -> ->. eexists. split; [reflexivity|].
    destruct messages as [|[|c m]|l]; cbn [string_truthy]; repeat split;
      try solve [ intros H; try destruct H; congruence | auto | intros; congruence ].
Qed.

Lemma setMessages_forwarded_witness :
  SRPanel.setMessages false false (SRPanel.OneMessage "Card number is invalid") = Return None
  /\ SRPanel.setMessages true false SRPanel.NoMessages = Throw TypeError
  /\ exists panelMessages,
       SRPanel.setMessages true true (SRPanel.OneMessage "Card number is invalid")
       = Return (Some panelMessages)
       /\ panelMessages = Some ["Card number is invalid"].
Proof.
  split; [|split].
  - apply (setMessages_forwarded false false). reflexivity.
  - apply (setMessages_forwarded true false); reflexivity.
  - destruct (setMessages_forwarded true true (SRPanel.OneMessage "Card number is invalid"))
      as (_ & _ & H).
    destruct (H eq_refl eq_refl) as (pm & Hr & _ & Hm & _).
    exists pm. split; [exact Hr|]. apply Hm; [reflexivity|discriminate].
Defined.

(** ** The Click to Pay card list *)

Section CtPLabels.

Import CtPCards.

Variable i18n_get : string -> string.

Lemma includes_prefix (needle rest : string) : includes needle (needle ++ rest) = true.
Proof.
  assert (H : starts_with needle (needle ++ rest) = true).
  { induction needle as [|c needle IH]; [reflexivity|].
    rewrite append_cons. cbn [starts_with]. rewrite Ascii.eqb_refl. exact IH. }
  destruct (needle ++ rest); cbn [includes]; rewrite H; reflexivity.
Qed.

(** X14. [getErrorLabel] gives [null] exactly for no error code or the empty
    one.  Otherwise it gives the translation of the code, or that of
    UNKNOWN_ERROR when the translation of the code holds the text
    "ctp.errors"; so when [i18n.get] hands back the key of a code it has no
    translation for, the label is that of UNKNOWN_ERROR, and no label holds
    "ctp.errors" unless the translation of UNKNOWN_ERROR does. *)
Theorem getErrorLabel_cases (errorCode : option string) :
  (getErrorLabel i18n_get errorCode = None <-> truthy errorCode = false)
  /\ (forall code, errorCode = Some code -> code <> EmptyString ->
      getErrorLabel i18n_get errorCode
      = Some (if includes "ctp.errors" (i18n_get ("ctp.errors." ++ code))
              then i18n_get "ctp.errors.UNKNOWN_ERROR"
              else i18n_get ("ctp.errors." ++ code))
      /\ (i18n_get ("ctp.errors." ++ code) = "ctp.errors." ++ code ->
          getErrorLabel i18n_get errorCode = Some (i18n_get "ctp.errors.UNKNOWN_ERROR")))
  /\ (includes "ctp.errors" (i18n_get "ctp.errors.UNKNOWN_ERROR") = false ->
      forall label, getErrorLabel i18n_get errorCode = Some label ->
                    includes "ctp.errors" label = false).
Proof.
  unfold getErrorLabel. split; [|split].
  - destruct (truthy errorCode); cbn [negb]; split; try discriminate; try reflexivity.
    destruct (includes _ _); discriminate.
  - intros code -> Hne.
    assert (Ht : truthy (Some code) = true) by (destruct code; [contradiction|reflexivity]).
    rewrite Ht. cbn [negb text_of]. split.
    + destruct (includes _ _); reflexivity.
    + intros E. rewrite E.
      change ("ctp.errors." ++ code) with ("ctp.errors" ++ String "." code).
      rewrite includes_prefix. reflexivity.
  - intros Hu label. destruct (truthy errorCode); cbn [negb]; [|discriminate].
    destruct (includes "ctp.errors" (i18n_get ("ctp.errors." ++ text_of errorCode))) eqn:E;
      intros H; injection H as <-; assumption.
Qed.

End CtPLabels.

Lemma getErrorLabel_cases_witness :
  CtPCards.getErrorLabel (fun key => if String.eqb key "ctp.errors.UNKNOWN_ERROR"
                            then "An unknown error occurred" else key)
                (Some "ACCT_INACCESSIBLE")
  = Some "An unknown error occurred".
Proof.
  pose (i18n_get := fun key => if String.eqb key "ctp.errors.UNKNOWN_ERROR"
                               then "An unknown error occurred" else key).
  destruct (getErrorLabel_cases i18n_get (Some "ACCT_INACCESSIBLE")) as (_ & H & _).
  destruct (H "ACCT_INACCESSIBLE" eq_refl) as [_ Hk]; [discriminate|].
  apply Hk. reflexivity.
Defined.

Section CtPCardsFacts.

Import CtPCards.

Variable ShopperCard : Type.
Variable isExpired : ShopperCard -> bool.
Variable isDcfPopupEmbedded : ShopperCard -> bool.

Local Abbreviation initialCheckoutCard := (initialCheckoutCard ShopperCard isExpired).
Local Abbreviation isEveryCardExpired := (isEveryCardExpired ShopperCard isExpired).
Local Abbreviation displaysCardComponent := (displaysCardComponent ShopperCard isExpired).
Local Abbreviation displayNetworkDcf := (displayNetworkDcf ShopperCard isDcfPopupEmbedded).

Lemma find_first_usable (cards : list ShopperCard) :
  match find (fun card => negb (isExpired card)) cards with
  | Some card =>
      isExpired card = false
      /\ exists before after,
           cards = (before ++ card :: after)%list /\ forallb isExpired before = true
  | None => forallb isExpired cards = true
  end.
Proof.
  induction cards as [|c cards IH]; cbn [find forallb]; [reflexivity|].
  destruct (isExpired c) eqn:E; cbn [negb andb].
  - destruct (find _ cards) as [card|].
    + destruct IH as (Hc & before & after & -> & Hb). split; [exact Hc|].
      exists (c :: before), after. split; [reflexivity|]. cbn [forallb]. rewrite E. exact Hb.
    + exact IH.
  - split; [exact E|]. exists [], cards. split; reflexivity.
Qed.

(** X15. The card selected at first is missing exactly when there is no
    card.  When some card is not expired it is the first such card, all
    cards before it being expired; it is an expired card (the first of the
    list) exactly when every card is expired, which is when the pay button
    is disabled.  The test [cards.length === 0] of the effect adds nothing to
    [isEveryCardExpired]. *)
Theorem initialCheckoutCard_spec (cards : list ShopperCard) :
  (initialCheckoutCard cards = None <-> cards = [])
  /\ (isEveryCardExpired cards = false ->
      exists card before after,
        initialCheckoutCard cards = Some card
        /\ isExpired card = false
        /\ cards = (before ++ card :: after)%list
        /\ forallb isExpired before = true)
  /\ (isEveryCardExpired cards = true -> initialCheckoutCard cards = nth_error cards 0)
  /\ (forall card, initialCheckoutCard cards = Some card ->
      In card cards /\ (isExpired card = true <-> isEveryCardExpired cards = true))
  /\ displaysCardComponent cards = isEveryCardExpired cards.
Proof.
  pose proof (find_first_usable cards) as Hf.
  unfold CtPCards.initialCheckoutCard, CtPCards.displaysCardComponent,
    CtPCards.isEveryCardExpired.
  change (forallb (fun card => isExpired card) cards) with (forallb isExpired cards).
  destruct (find (fun card => negb (isExpired card)) cards) as [card|] eqn:Efind.
  - destruct Hf as (Hc & before & after & Hcards & Hb).
    assert (Hall : forallb isExpired cards = false).
    { rewrite Hcards, forallb_app. cbn [forallb]. rewrite Hc, Hb. reflexivity. }
    rewrite Hall. split; [|split; [|split; [|split]]].
    + split; [discriminate|]. intros ->. discriminate Efind.
    + intros _. exists card, before, after. auto.
    + discriminate.
    + intros card' H. injection H as <-. split.
      * apply (find_some _ _ Efind).
      * rewrite Hc. split; discriminate.
    + destruct cards; [discriminate Efind|reflexivity].
  - rewrite Hf. split; [|split; [|split; [|split]]].
    + destruct cards; cbn [nth_error]; split; try discriminate; reflexivity.
    + discriminate.
    + reflexivity.
    + intros card H. split; [apply (nth_error_In _ _ H)|].
      split; [reflexivity|]. intros _.
      destruct cards as [|c cards]; [discriminate H|]. cbn [nth_error] in H. injection H as <-.
      cbn [forallb] in Hf. apply andb_true_iff in Hf. apply Hf.
    + apply orb_true_r.
Qed.

(** X16. With a card selected, the card view is displayed exactly when the
    network iframe is not: the test of the status in
    [displayCardCheckoutView] adds nothing.  Without a card, computing
    [displayNetworkDcf] throws a TypeError exactly when the status is
    "loading". *)
Theorem displayCardCheckoutView_spec (status : string) (checkoutCard : option ShopperCard) :
  (forall card, checkoutCard = Some card ->
     exists shown,
       displayNetworkDcf status checkoutCard = Return shown
       /\ shown = String.eqb status "loading" && isDcfPopupEmbedded card
       /\ displayCardCheckoutView status shown = negb shown)
  /\ (checkoutCard = None ->
      (displayNetworkDcf status checkoutCard = Throw TypeError <-> status = "loading")
      /\ (status <> "loading" -> displayNetworkDcf status checkoutCard = Return false)).
Proof.
  unfold CtPCards.displayNetworkDcf, displayCardCheckoutView. split.
  - intros card ->. destruct (String.eqb status "loading"); eexists; repeat split.
  - intros ->. destruct (String.eqb_spec status "loading") as [->|Hne]; repeat split;
      try congruence; try discriminate.
Qed.

(** Case analysis on the membership of a call in a trace. *)
Ltac in_cases H :=
  cbn [In] in H; repeat (destruct H as [H|H]); try discriminate H; try contradiction.

(** X17. The calls of [doCheckout], in order.  Without a selected card it
    does nothing.  With one it first clears the error code and sets the
    status to "loading", the only status it ever sets; [onSubmit] is called
    exactly when the checkout resolves, with its payload; [onError] is
    called exactly when setting the status, the checkout or [onSubmit]
    fails, with that failure, once and as the last call; and an error code
    is stored exactly for a failure that is a SrciError, as its reason. *)
Theorem doCheckout_trace {Payload : Type} (checkoutCard : option ShopperCard)
        (onSetStatus : string -> option Failure)
        (checkout : ShopperCard -> Payload + Failure)
        (onSubmit : Payload -> option Failure) :
  let trace := doCheckout checkoutCard onSetStatus checkout onSubmit in
  (checkoutCard = None -> trace = [])
  /\ (forall status, In (OnSetStatus status) trace -> status = "loading")
  /\ (forall card, checkoutCard = Some card ->
      (exists rest, trace = SetErrorCode None :: OnSetStatus "loading" :: rest)
      /\ (forall payload,
            In (OnSubmit payload) trace
            <-> onSetStatus "loading" = None /\ checkout card = inl payload)
      /\ (forall error,
            In (OnError error) trace
            <-> onSetStatus "loading" = Some error
                \/ onSetStatus "loading" = None
                   /\ (checkout card = inr error
                       \/ exists payload,
                            checkout card = inl payload /\ onSubmit payload = Some error))
      /\ (forall error,
            In (OnError error) trace ->
            exists before,
              trace = (before ++ [OnError error])%list
              /\ forall e, ~ In (OnError e : Event ShopperCard Payload) before)
      /\ (forall reason,
            In (SetErrorCode (Some reason)) trace
            <-> exists source scheme, In (OnError (SrciError reason source scheme)) trace)).
Proof.
  cbn zeta. unfold doCheckout. split; [intros ->; reflexivity|].
  destruct checkoutCard as [card|]; [|repeat split; try contradiction; discriminate].
  split; [|intros card' Hc; injection Hc as <-].
  all: destruct (onSetStatus "loading") as [e1|] eqn:E1;
    [|destruct (checkout card) as [p|e2] eqn:E2;
      [destruct (onSubmit p) as [e3|] eqn:E3|]];
    repeat match goal with e : Failure |- _ => destruct e end;
    cbn [doCheckout_catch].
  all: try (intros status H; in_cases H; injection H as <-; reflexivity).
  all: split; [eexists; reflexivity|].
  all: split;
    [intros payload; split;
     [intros H; in_cases H; try (injection H as <-); auto
     |intros [H1 H2]; try discriminate; try (injection H2 as <-); cbn [In]; auto 12]|].
  all: split;
    [intros error; split;
     [intros H; in_cases H; injection H as <-; eauto 8
     |intros [H|[H1 [H|(p' & H & H')]]]; try discriminate;
      try (injection H as <-); try (rewrite E3 in H'; first [discriminate H'|injection H' as <-]);
      cbn [In]; auto 12]|].
  all: split;
    [intros error H; in_cases H; injection H as <-;
     match goal with
     | |- exists before, ?l = _ /\ _ =>
         exists (removelast l); split; [reflexivity|];
         cbn [removelast]; intros e He; in_cases He
     end
    |intros reason'; split;
     [intros H; in_cases H; injection H as <-; cbn [In]; eauto 12
     |intros (source' & scheme' & H); in_cases H; injection H as <- <- <-;
      cbn [In]; auto 12]].
Qed.




End CtPCardsFacts.

Lemma initialCheckoutCard_spec_witness :
  CtPCards.isEveryCardExpired (string * bool) snd
    [("1111", true); ("2222", false); ("3333", false)] = false
  /\ (exists card,
        CtPCards.initialCheckoutCard (string * bool) snd
          [("1111", true); ("2222", false); ("3333", false)] = Some card
        /\ snd card = false)
  /\ CtPCards.initialCheckoutCard (string * bool) snd [("1111", true); ("4444", true)]
     = Some ("1111", true).
Proof.
  split; [reflexivity|]. split.
  - destruct (initialCheckoutCard_spec (string * bool) snd
                [("1111", true); ("2222", false); ("3333", false)]) as (_ & H & _).
    destruct (H eq_refl) as (card & before & after & Hc & He & _). exists card. auto.
  - destruct (initialCheckoutCard_spec (string * bool) snd
                [("1111", true); ("4444", true)]) as (_ & _ & H & _).
    rewrite (H eq_refl). reflexivity.
Defined.

Lemma displayCardCheckoutView_spec_witness :
  exists shown,
    CtPCards.displayNetworkDcf (string * bool) snd "loading" (Some ("1111", true)) = Return shown
    /\ CtPCards.displayCardCheckoutView "loading" shown = negb shown.
Proof.
  destruct (displayCardCheckoutView_spec (string * bool) snd "loading" (Some ("1111", true)))
    as [H _].
  destruct (H _ eq_refl) as (shown & Hs & _ & Hv). exists shown. split; assumption.
Defined.

Lemma doCheckout_trace_witness :
  In (CtPCards.OnError (CtPCards.SrciError "ACCT_INACCESSIBLE" "SRCI" "visa"))
     (CtPCards.doCheckout (Payload := string) (Some ("1111", false))
        (fun _ => None)
        (fun _ => inr (CtPCards.SrciError "ACCT_INACCESSIBLE" "SRCI" "visa"))
        (fun _ => None))
  /\ In (CtPCards.SetErrorCode (Some "ACCT_INACCESSIBLE"))
        (CtPCards.doCheckout (Payload := string) (Some ("1111", false))
           (fun _ => None)
           (fun _ => inr (CtPCards.SrciError "ACCT_INACCESSIBLE" "SRCI" "visa"))
           (fun _ => None)).
Proof.
  destruct (doCheckout_trace (string * bool) (Payload := string) (Some ("1111", false))
              (fun _ => None)
              (fun _ => inr (CtPCards.SrciError "ACCT_INACCESSIBLE" "SRCI" "visa"))
              (fun _ => None)) as (_ & _ & H).
  destruct (H _ eq_refl) as (_ & _ & He & _ & Hr).
  assert (Hin : In (CtPCards.OnError (CtPCards.SrciError "ACCT_INACCESSIBLE" "SRCI" "visa"))
                  (CtPCards.doCheckout (Payload := string) (Some ("1111", false))
                     (fun _ => None)
                     (fun _ => inr (CtPCards.SrciError "ACCT_INACCESSIBLE" "SRCI" "visa"))
                     (fun _ => None))).
  { apply He. right. split; [reflexivity|]. left. reflexivity. }
  split; [exact Hin|]. apply Hr. eauto.
Defined.

(** ** Tokens that are base64 *)

(** X18. For the base64 of any non-empty text, [decodeAndParseToken] is
    [JSON.parse] of that text: it returns the parsed value, or throws "Could
    not decode token" when the text is not JSON; how the decoder reports a
    string that is not base64 plays no part.  For the base64 of the empty
    text, the empty token, it returns the empty string. *)
Theorem decodeAndParseToken_of_base64 (u : Base64.Undecodable) (text : string) :
  (text <> EmptyString ->
   decodeAndParseToken u (Base64.encode text)
   = match JSON.parse text with
     | Some v => Return v
     | None => Throw (Error "Could not decode token")
     end)
  /\ decodeAndParseToken u (Base64.encode EmptyString) = Return (JString EmptyString)
  /\ Base64.encode EmptyString = EmptyString.
Proof.
  split; [|split; reflexivity].
  intros Hne. unfold decodeAndParseToken, Base64.decode.
  rewrite Base64Facts.decode_encode. cbn [bind].
  destruct text; [contradiction|reflexivity].
Qed.

Lemma decodeAndParseToken_of_base64_witness :
  decodeAndParseToken (Base64.Yields Base64.FFalse) (Base64.encode "[1, 2")
  = Throw (Error "Could not decode token").
Proof.
  apply (decodeAndParseToken_of_base64 (Base64.Yields Base64.FFalse) "[1, 2"). discriminate.
Defined.
